(** * URL shortener: a shallow embedding of [server.py]

    The two request handlers of the service, [url_shorten] and
    [url_resolve], are embedded as computations in a small monad that
    threads the state of the outside world through the calls the Python
    code makes: the MongoDB collection, the random module, the wall clock.

    - The collection [URL_Collection] is a list of documents in insertion
      order.  [insert_one] appends and enforces no uniqueness; [find_one]
      returns the first document that matches the filter.
    - [random.choice] and [datetime.now] are not functions of the program
      state.  They read from two oracles, [entropy] and [clock]; the world
      counts how many values were read from each.
    - [validators.url] is a function of a library that is not part of the
      repository; it is a field of the environment as well.
    - The [while] loop of [url_shorten] has no bound in the source.  Its
      embedding takes a number of allowed iterations and answers
      [OutOfFuel] when they are used up; "the handler returns" is
      "some number of iterations suffices". *)

From Stdlib Require Import String Ascii List ZArith Arith Lia Bool Sorted.
Import ListNotations.
Open Scope string_scope.

(** ** Data model *)

(** A document of [URL_Collection], with the four keys that [url_shorten]
    stores (lines 87-92).  Timestamps are instants on the integer line. *)
Record Document := mkDocument {
  original_url : string;
  short_url : string;
  created_at : Z;
  updated_at : Z
}.

(** The calls the handlers make on the collection. *)
Inductive DbCall :=
| FindOne (filter_short_url : string)
| InsertOne (document : Document).

(** The world outside the handlers. *)
Record World := mkWorld {
  database : list Document;   (* URL_Collection, oldest document first *)
  draws : nat;                (* values read from the random module *)
  ticks : nat;                (* readings of the clock *)
  calls : list DbCall         (* calls made on the collection, oldest first *)
}.

(** What the program cannot compute by itself. *)
Record Env := mkEnv {
  validators_url : string -> bool;   (* truthiness of validators.url(s) *)
  entropy : nat -> nat;              (* k-th value the random module yields *)
  clock : nat -> Z                   (* k-th reading of datetime.now(timezone.utc) *)
}.

(** [class ShortenRequest(BaseModel)] and the part of the transport's
    [Request] the handler reads. *)
Record ShortenRequest := mkShortenRequest { url : string }.
Record Request := mkRequest { headers : list (string * string) }.

Inductive Exception :=
| HTTPException (status_code : nat) (detail : string)
| IndexError.

Inductive Response :=
| JSONResponse (content_short_url : string) (status_code : nat)
| RedirectResponse (location : string).

(** ** The monad of handlers *)

Inductive Res (A : Type) :=
| Return (a : A) (w : World)
| Raise (e : Exception) (w : World)
| OutOfFuel.
Arguments Return {A} a w.
Arguments Raise {A} e w.
Arguments OutOfFuel {A}.

Definition M (A : Type) := World -> Res A.

Definition ret {A} (a : A) : M A := fun w => Return a w.

Definition raise {A} (e : Exception) : M A := fun w => Raise e w.

Definition bind {A B} (m : M A) (f : A -> M B) : M B :=
  fun w => match m w with
           | Return a w' => f a w'
           | Raise e w' => Raise e w'
           | OutOfFuel => OutOfFuel
           end.

Declare Scope handler_scope.
Delimit Scope handler_scope with handler.
Notation "x <- m ;; k" := (bind m (fun x => k))
  (at level 100, m at next level, right associativity) : handler_scope.
Notation "m ;;; k" := (bind m (fun _ => k))
  (at level 100, right associativity) : handler_scope.
Open Scope handler_scope.

(** ** string constants of the Python library *)

Definition ascii_lowercase := "abcdefghijklmnopqrstuvwxyz".
Definition ascii_uppercase := "ABCDEFGHIJKLMNOPQRSTUVWXYZ".
Definition ascii_letters := ascii_lowercase ++ ascii_uppercase.
Definition digits := "0123456789".

(** The alphabet in the words of the specification: upper-case letters,
    lower-case letters and digits. *)
Definition is_alphabet_char (c : ascii) : bool :=
  let n := nat_of_ascii c in
  ((65 <=? n)%nat && (n <=? 90)%nat)
  || ((97 <=? n)%nat && (n <=? 122)%nat)
  || ((48 <=? n)%nat && (n <=? 57)%nat).

Fixpoint all_chars (p : ascii -> bool) (s : string) : bool :=
  match s with
  | EmptyString => true
  | String c s' => p c && all_chars p s'
  end.

Fixpoint occurs (c : ascii) (s : string) : bool :=
  match s with
  | EmptyString => false
  | String a s' => Ascii.eqb a c || occurs c s'
  end.

(** [s.removeprefix(p)], failing when [p] is no prefix of [s]. *)
Fixpoint strip_prefix (p s : string) : option string :=
  match p, s with
  | EmptyString, _ => Some s
  | String a p', String b s' =>
      if Ascii.eqb a b then strip_prefix p' s' else None
  | String _ _, EmptyString => None
  end.

(** ** Primitive operations on the world *)

Definition set_database (db : list Document) (w : World) : World :=
  mkWorld db (draws w) (ticks w) (calls w).
Definition log_call (c : DbCall) (w : World) : World :=
  mkWorld (database w) (draws w) (ticks w) (calls w ++ [c]).
Definition advance_draws (n : nat) (w : World) : World :=
  mkWorld (database w) (draws w + n) (ticks w) (calls w).
Definition advance_ticks (n : nat) (w : World) : World :=
  mkWorld (database w) (draws w) (ticks w + n) (calls w).

(** [collection.find_one(filter={"short_url": k})]: the first document
    whose [short_url] is [k], [None] when there is none. *)
Definition lookup (k : string) (db : list Document) : option Document :=
  find (fun d => String.eqb (short_url d) k) db.

Definition find_one (k : string) : M (option Document) :=
  fun w => Return (lookup k (database w)) (log_call (FindOne k) w).

(** [collection.insert_one(document)]: appends. *)
Definition insert_one (d : Document) : M unit :=
  fun w => Return tt (log_call (InsertOne d) (set_database (database w ++ [d]) w)).

(** [info.headers.get(key)]: the first header under [key]. *)
Definition headers_get (info : Request) (key : string) : option string :=
  match find (fun kv => String.eqb (fst kv) key) (headers info) with
  | Some kv => Some (snd kv)
  | None => None
  end.

(** How an f-string renders a value that is a string or [None]. *)
Definition format_value (v : option string) : string :=
  match v with
  | Some s => s
  | None => "None"
  end.

(** line 55: [base62 = string.ascii_letters + string.digits], a constant. *)
Definition base62 : string := ascii_letters ++ digits.

Section Handlers.

Variable env : Env.

(** [random.choice(seq)]: [seq[i]] for an [i] below [len(seq)] taken from
    the random module; [IndexError] on an empty sequence. *)
Definition random_choice (seq : string) : M ascii :=
  fun w =>
    match String.get (entropy env (draws w) mod String.length seq) seq with
    | Some c => Return c (advance_draws 1 w)
    | None => Raise IndexError w
    end.

(** [datetime.now(timezone.utc)]. *)
Definition now : M Z :=
  fun w => Return (clock env (ticks w)) (advance_ticks 1 w).

(** [''.join(random.choice(seq) for _ in range(length))] *)
Fixpoint join_choices (seq : string) (length : nat) : M string :=
  match length with
  | O => ret ""
  | S n =>
      c <- random_choice seq ;;
      s <- join_choices seq n ;;
      ret (String c s)
  end.

(** lines 50-56; the default of [length] is [default_length], and the
    local [base62] is the constant of that name above. *)
Definition default_length : nat := 7.

Definition generate_id (length : nat) : M string :=
  join_choices base62 length.

(** lines 79-85: [while curr_url: id = generate_id(); curr_url = find_one(..)].
    A document that [find_one] returns is a non-empty dict, hence true. *)
Fixpoint while_curr_url (fuel : nat) (id : string) (curr_url : option Document)
  : M string :=
  match curr_url with
  | None => ret id
  | Some _ =>
      match fuel with
      | O => fun _ => OutOfFuel
      | S fuel' =>
          id' <- generate_id default_length ;;
          curr_url' <- find_one id' ;;
          while_curr_url fuel' id' curr_url'
      end
  end.

(** lines 61-99 *)
Definition url_shorten (fuel : nat) (request : ShortenRequest) (info : Request)
  : M Response :=
  if negb (validators_url env (url request)) then
    raise (HTTPException 400 (url request ++ " is not a valid url"))
  else
    id <- generate_id default_length ;;
    curr_url <- find_one id ;;
    id <- while_curr_url fuel id curr_url ;;
    created <- now ;;
    updated <- now ;;
    let document := {| original_url := url request;
                       short_url := id;
                       created_at := created;
                       updated_at := updated |} in
    insert_one document ;;;
    let host := headers_get info "host" in
    ret (JSONResponse (format_value host ++ "/r/" ++ id) 201).

(** lines 106-124 *)
Definition url_resolve (short_url : string) : M Response :=
  curr_url <- find_one short_url ;;
  match curr_url with
  | None => raise (HTTPException 404 (short_url ++ " not found"))
  | Some d => ret (RedirectResponse (original_url d))
  end.

(** A request to the service, and the service handling a sequence of them
    one after the other. *)
Inductive Call :=
| Shorten (request : ShortenRequest) (info : Request)
| Resolve (short_url : string).

Inductive Outcome :=
| Responded (r : Response)
| Failed (e : Exception).

Definition handle (fuel : nat) (c : Call) : M Response :=
  match c with
  | Shorten request info => url_shorten fuel request info
  | Resolve k => url_resolve k
  end.

(** What the service answers to one call, the framework turning a raised
    exception into the response of a failure; nothing when the handler
    does not come back within [fuel] iterations of its loop. *)
Definition respond (fuel : nat) (c : Call) (w : World)
  : option (Outcome * World) :=
  match handle fuel c w with
  | Return r w' => Some (Responded r, w')
  | Raise e w' => Some (Failed e, w')
  | OutOfFuel => None
  end.

Fixpoint serve (fuel : nat) (cs : list Call) (w : World)
  : option (list Outcome * World) :=
  match cs with
  | [] => Some ([], w)
  | c :: cs' =>
      match respond fuel c w with
      | Some (o, w1) =>
          match serve fuel cs' w1 with
          | Some (os, w2) => Some (o :: os, w2)
          | None => None
          end
      | None => None
      end
  end.

End Handlers.

(** ** Notions the properties are stated with *)

Section Notions.

Variable env : Env.

(** The character [random.choice(base62)] returns at the [d]-th draw, and
    the string that [n] draws from the [d]-th on make. *)
Definition pick (d : nat) : ascii :=
  match String.get (entropy env d mod 62) base62 with
  | Some c => c
  | None => zero
  end.

Fixpoint drawn (d n : nat) : string :=
  match n with
  | O => ""
  | S k => String (pick d) (drawn (S d) k)
  end.

(** The [k]-th code that the generator makes from world [w] on, the calls
    of [generate_id] counted from 0. *)
Definition candidate (w : World) (k : nat) : string :=
  match generate_id env default_length (advance_draws (default_length * k) w) with
  | Return id _ => id
  | _ => ""
  end.

(** The world after one more code was generated and [k] was looked up. *)
Definition after_attempt (w : World) (k : string) : World :=
  log_call (FindOne k) (advance_draws default_length w).

(** The document [url_shorten] stores for a request under code [id], from
    a world [w]. *)
Definition new_document (request : ShortenRequest) (id : string) (w : World)
  : Document :=
  {| original_url := url request;
     short_url := id;
     created_at := clock env (ticks w);
     updated_at := clock env (S (ticks w)) |}.

End Notions.

(** A code in the sense of the specification: [default_length] characters
    of the alphabet. *)
Definition well_formed_code (s : string) : Prop :=
  String.length s = default_length /\ all_chars is_alphabet_char s = true.

Definition codes (db : list Document) : list string := map short_url db.

(** The body of a successful response. *)
Definition short_link (info : Request) (id : string) : string :=
  format_value (headers_get info "host") ++ "/r/" ++ id.

(** The code a successful [url_shorten] hands out: what follows the host
    and "/r/" in the body of its response. *)
Definition returned_code (c : Call) (o : Outcome) : option string :=
  match c, o with
  | Shorten _ info, Responded (JSONResponse body _) =>
      strip_prefix (format_value (headers_get info "host") ++ "/r/") body
  | _, _ => None
  end.

Fixpoint returned_codes (cs : list Call) (os : list Outcome) : list string :=
  match cs, os with
  | c :: cs', o :: os' =>
      match returned_code c o with
      | Some k => k :: returned_codes cs' os'
      | None => returned_codes cs' os'
      end
  | _, _ => []
  end.

(** A document whose two timestamps are two successive readings of the
    clock, [created_at] the earlier one. *)
Definition stamped (env : Env) (d : Document) : Prop :=
  exists t, created_at d = clock env t /\ updated_at d = clock env (S t).

(** What [url_resolve] answers for code [k] on collection [db]. *)
Definition resolve_outcome (db : list Document) (k : string) : Outcome :=
  match lookup k db with
  | Some d => Responded (RedirectResponse (original_url d))
  | None => Failed (HTTPException 404 (k ++ " not found"))
  end.

(** ** Notions for the history of the collection *)

Section History_notions.

Variable env : Env.

(** The world after [k] codes in a row were generated and looked up, and
    the [find_one] calls this makes. *)
Fixpoint attempts (w : World) (k : nat) : World :=
  match k with
  | O => w
  | S k' => attempts (after_attempt w (candidate env w 0)) k'
  end.

Definition attempt_calls (w : World) (k : nat) : list DbCall :=
  map (fun j => FindOne (candidate env w j)) (seq 0 k).

(** The documents [ds] were stamped one after the other, each with two
    successive readings of the clock, all of them between the [t]-th
    reading and the [tend]-th. *)
Fixpoint stamps_ordered (t : nat) (ds : list Document) (tend : nat) : Prop :=
  match ds with
  | [] => (t <= tend)%nat
  | d :: ds' =>
      exists t', (t <= t')%nat /\
                 created_at d = clock env t' /\
                 updated_at d = clock env (S t') /\
                 stamps_ordered (t' + 2) ds' tend
  end.

End History_notions.

(** Whether the characters of [base62] are pairwise different. *)
Definition base62_distinct_check : bool :=
  forallb
    (fun i =>
       forallb
         (fun j =>
            match String.get i base62, String.get j base62 with
            | Some a, Some b => implb (Ascii.eqb a b) (i =? j)%nat
            | _, _ => true
            end)
         (seq 0 62))
    (seq 0 62).

(** What a document maps: its code and its original URL. *)
Definition mapping_of (d : Document) : string * string :=
  (short_url d, original_url d).

(** The mapping a successful [url_shorten] answers for: the code it hands
    out and the URL of the request. *)
Definition returned_mapping (c : Call) (o : Outcome)
  : option (string * string) :=
  match c, o with
  | Shorten request info, Responded (JSONResponse body _) =>
      match strip_prefix (format_value (headers_get info "host") ++ "/r/")
                         body with
      | Some k => Some (k, url request)
      | None => None
      end
  | _, _ => None
  end.

Fixpoint returned_mappings (cs : list Call) (os : list Outcome)
  : list (string * string) :=
  match cs, os with
  | c :: cs', o :: os' =>
      match returned_mapping c o with
      | Some m => m :: returned_mappings cs' os'
      | None => returned_mappings cs' os'
      end
  | _, _ => []
  end.

(** ** The application: its attributes, its log, its life cycle

    The handlers above leave out what the Python functions do besides
    their work on the collection: they read [app.database] and
    [app.state.worker_id], attributes that [start_db_client] sets, and
    they write log records.  Module [Application] embeds the functions of
    [server.py] with all of that, on a server state that holds the
    attributes of [app], the world of the handlers above and the log. *)

Module Application.

Inductive Level := INFO | ERROR.

Record LogRecord := mkLogRecord { level : Level; message : string }.

(** A [MongoClient]: the URI it was made for, and whether [close] was
    called on it. *)
Record Client := mkClient { uri : option string; closed : bool }.

(** The attributes that the module sets on [app]; [None] is an attribute
    that was not set. *)
Record App := mkApp {
  mongodb_client : option Client;   (* app.mongodb_client *)
  app_database : option string;     (* app.database, by the name of the database *)
  worker_id : option string         (* app.state.worker_id *)
}.

Record Server := mkServer {
  app : App;
  world : World;
  log : list LogRecord              (* oldest record first *)
}.

(** What [start_db_client] takes from outside the program. *)
Record Boot := mkBoot {
  MONGO_URI : option string;                   (* os.getenv("MONGO_URI") *)
  MongoClient_accepts : option string -> bool; (* MongoClient(uri) returns *)
  ping : bool;                                 (* admin.command('ping') returns *)
  uuid4 : string                               (* str(uuid.uuid4()) *)
}.

Inductive Fault :=
| Raised (e : Exception)           (* what the handlers above raise *)
| AttributeError (name : string)   (* an attribute that does not exist *)
| ClientError                      (* raised by MongoClient(uri) *)
| WrappedException.                (* Exception(e) of line 39 *)

Inductive Out (A : Type) :=
| Done (a : A) (s : Server)
| Fails (f : Fault) (s : Server)
| Hangs.
Arguments Done {A} a s.
Arguments Fails {A} f s.
Arguments Hangs {A}.

Definition L (A : Type) := Server -> Out A.

Definition ret {A} (a : A) : L A := fun s => Done a s.

Definition fail {A} (f : Fault) : L A := fun s => Fails f s.

Definition bind {A B} (m : L A) (k : A -> L B) : L B :=
  fun s => match m s with
           | Done a s' => k a s'
           | Fails f s' => Fails f s'
           | Hangs => Hangs
           end.

Declare Scope app_scope.
Delimit Scope app_scope with app.
Notation "x <- m ;; k" := (bind m (fun x => k))
  (at level 100, m at next level, right associativity) : app_scope.
Notation "m ;;; k" := (bind m (fun _ => k))
  (at level 100, right associativity) : app_scope.
Local Open Scope app_scope.

Definition set_world (w : World) (s : Server) : Server :=
  mkServer (app s) w (log s).
Definition set_app (a : App) (s : Server) : Server :=
  mkServer a (world s) (log s).
Definition add_log (r : LogRecord) (s : Server) : Server :=
  mkServer (app s) (world s) (log s ++ [r]).

(** A computation of the handlers above, run on the world of the server. *)
Definition lift {A} (m : M A) : L A :=
  fun s => match m (world s) with
           | Return a w' => Done a (set_world w' s)
           | Raise e w' => Fails (Raised e) (set_world w' s)
           | OutOfFuel => Hangs
           end.

(** [logging.info(msg)], [logging.error(msg)]; with
    [logging.basicConfig(level=logging.DEBUG)] both are recorded. *)
Definition logging_info (msg : string) : L unit :=
  fun s => Done tt (add_log (mkLogRecord INFO msg) s).
Definition logging_error (msg : string) : L unit :=
  fun s => Done tt (add_log (mkLogRecord ERROR msg) s).

(** [logging.Error(msg)] of line 38: the module [logging] has the
    function [error] and the constant [ERROR], and no attribute [Error]. *)
Definition logging_Error (msg : string) : L unit :=
  fail (AttributeError "Error").

(** Reading [app.state.worker_id], [app.database], [app.mongodb_client]. *)
Definition get_worker_id : L string :=
  fun s => match worker_id (app s) with
           | Some wid => Done wid s
           | None => Fails (AttributeError "worker_id") s
           end.
Definition get_database : L string :=
  fun s => match app_database (app s) with
           | Some db => Done db s
           | None => Fails (AttributeError "database") s
           end.
Definition get_mongodb_client : L Client :=
  fun s => match mongodb_client (app s) with
           | Some c => Done c s
           | None => Fails (AttributeError "mongodb_client") s
           end.

Definition set_mongodb_client (c : Client) : L unit :=
  fun s => Done tt (set_app (mkApp (Some c) (app_database (app s))
                                   (worker_id (app s))) s).
Definition set_database_attr (db : string) : L unit :=
  fun s => Done tt (set_app (mkApp (mongodb_client (app s)) (Some db)
                                   (worker_id (app s))) s).
Definition set_worker_id (wid : string) : L unit :=
  fun s => Done tt (set_app (mkApp (mongodb_client (app s))
                                   (app_database (app s)) (Some wid)) s).

(** [app.database.get_collection("URL_Collection").find_one(filter=..)]
    and [.insert_one(document)]. *)
Definition collection_find_one (k : string) : L (option Document) :=
  get_database ;;; lift (find_one k).
Definition collection_insert_one (d : Document) : L unit :=
  get_database ;;; lift (insert_one d).

Section Functions.

Variable env : Env.
Variable boot : Boot.

(** [MongoClient(uri)] *)
Definition MongoClient (u : option string) : L Client :=
  if MongoClient_accepts boot u then ret (mkClient u false)
  else fail ClientError.

(** lines 29-41 *)
Definition start_db_client : L unit :=
  let uri := MONGO_URI boot in
  client <- MongoClient uri ;;
  set_mongodb_client client ;;;
  set_database_attr "take-home" ;;;
  (if ping boot then
     logging_info "You successfully connected to MongoDB!"
   else
     logging_Error "Was not able to connect to MongoDB instance" ;;;
     fail WrappedException) ;;;
  let worker_id := uuid4 boot in
  set_worker_id worker_id.

(** lines 44-47 *)
Definition shutdown_db_client : L unit :=
  logging_info "Shutting down DB Client" ;;;
  c <- get_mongodb_client ;;
  set_mongodb_client (mkClient (uri c) true).

(** lines 79-85, with line 80 *)
Fixpoint while_curr_url (fuel : nat) (id : string)
         (curr_url : option Document) : L string :=
  match curr_url with
  | None => ret id
  | Some _ =>
      match fuel with
      | O => fun _ => Hangs
      | S fuel' =>
          wid <- get_worker_id ;;
          logging_info ("ID was duplicated: REGENERATING - WORKER: " ++ wid) ;;;
          id' <- lift (generate_id env default_length) ;;
          curr_url' <- collection_find_one id' ;;
          while_curr_url fuel' id' curr_url'
      end
  end.

(** lines 61-99 *)
Definition url_shorten (fuel : nat) (request : ShortenRequest)
           (info : Request) : L Response :=
  if negb (validators_url env (url request)) then
    wid <- get_worker_id ;;
    logging_error ("Invalid URL - WORKER: " ++ wid) ;;;
    fail (Raised (HTTPException 400 (url request ++ " is not a valid url")))
  else
    id <- lift (generate_id env default_length) ;;
    curr_url <- collection_find_one id ;;
    id <- while_curr_url fuel id curr_url ;;
    created <- lift (now env) ;;
    updated <- lift (now env) ;;
    let document := {| original_url := url request;
                       short_url := id;
                       created_at := created;
                       updated_at := updated |} in
    collection_insert_one document ;;;
    wid <- get_worker_id ;;
    logging_info ("Inserted new document into database - WORKER: " ++ wid) ;;;
    let host := headers_get info "host" in
    ret (JSONResponse (format_value host ++ "/r/" ++ id) 201).

(** lines 106-124 *)
Definition url_resolve (short_url : string) : L Response :=
  wid <- get_worker_id ;;
  logging_info ("Request handled by " ++ wid) ;;;
  curr_url <- collection_find_one short_url ;;
  match curr_url with
  | None =>
      wid <- get_worker_id ;;
      logging_error (short_url ++ " was not found in the database - WORKER: "
                       ++ wid) ;;;
      fail (Raised (HTTPException 404 (short_url ++ " not found")))
  | Some d => ret (RedirectResponse (original_url d))
  end.

(** lines 127-130 *)
Definition index : L string :=
  wid <- get_worker_id ;;
  logging_info ("Request handled by " ++ wid) ;;;
  ret "Your URL Shortener is running!".

End Functions.

(** The three routes, and what the service sends back for one. *)
Inductive Route :=
| POST_url_shorten (request : ShortenRequest) (info : Request)
| GET_r (short_url : string)
| GET_index.

Inductive Reply :=
| Sent (r : Response)
| Text (s : string)
| Failure (f : Fault).

Definition dispatch (env : Env) (fuel : nat) (rt : Route) (s : Server)
  : option (Reply * Server) :=
  match rt with
  | POST_url_shorten request info =>
      match url_shorten env fuel request info s with
      | Done r s' => Some (Sent r, s')
      | Fails f s' => Some (Failure f, s')
      | Hangs => None
      end
  | GET_r k =>
      match url_resolve k s with
      | Done r s' => Some (Sent r, s')
      | Fails f s' => Some (Failure f, s')
      | Hangs => None
      end
  | GET_index =>
      match index s with
      | Done t s' => Some (Text t, s')
      | Fails f s' => Some (Failure f, s')
      | Hangs => None
      end
  end.

Fixpoint run (env : Env) (fuel : nat) (rts : list Route) (s : Server)
  : option (list Reply * Server) :=
  match rts with
  | [] => Some ([], s)
  | rt :: rts' =>
      match dispatch env fuel rt s with
      | Some (o, s1) =>
          match run env fuel rts' s1 with
          | Some (os, s2) => Some (o :: os, s2)
          | None => None
          end
      | None => None
      end
  end.

(** The calls of the handlers above among the routes, and their outcomes
    among the replies. *)
Definition call_of (rt : Route) : option Call :=
  match rt with
  | POST_url_shorten request info => Some (Shorten request info)
  | GET_r k => Some (Resolve k)
  | GET_index => None
  end.

Fixpoint calls_of (rts : list Route) : list Call :=
  match rts with
  | [] => []
  | rt :: rts' =>
      match call_of rt with
      | Some c => c :: calls_of rts'
      | None => calls_of rts'
      end
  end.

Definition outcome_of (o : Reply) : option Outcome :=
  match o with
  | Sent r => Some (Responded r)
  | Failure (Raised e) => Some (Failed e)
  | _ => None
  end.

Fixpoint outcomes_of (os : list Reply) : list Outcome :=
  match os with
  | [] => []
  | o :: os' =>
      match outcome_of o with
      | Some x => x :: outcomes_of os'
      | None => outcomes_of os'
      end
  end.

(** A server whose start-up went through: both attributes that the
    handlers read are set, the worker's id being [wid]. *)
Definition started (wid : string) (s : Server) : Prop :=
  worker_id (app s) = Some wid /\ app_database (app s) <> None.

(** The log records of the handlers, for worker [wid]. *)
Definition regenerating (wid : string) : LogRecord :=
  mkLogRecord INFO ("ID was duplicated: REGENERATING - WORKER: " ++ wid).
Definition inserted (wid : string) : LogRecord :=
  mkLogRecord INFO ("Inserted new document into database - WORKER: " ++ wid).
Definition invalid_url (wid : string) : LogRecord :=
  mkLogRecord ERROR ("Invalid URL - WORKER: " ++ wid).
Definition handled_by (wid : string) : LogRecord :=
  mkLogRecord INFO ("Request handled by " ++ wid).
Definition was_not_found (k wid : string) : LogRecord :=
  mkLogRecord ERROR (k ++ " was not found in the database - WORKER: " ++ wid).

(** A record whose message ends with the id of the worker. *)
Definition names_worker (wid : string) (r : LogRecord) : Prop :=
  exists prefix, message r = prefix ++ wid.

End Application.

(** ** Concrete scenarios *)

(** A validator that accepts what starts with a scheme of the web. *)
Definition accepts_http (s : string) : bool :=
  String.prefix "http://" s || String.prefix "https://" s.

(** The random module yields 26 seven times, then 27 for ever: the
    generator produces "AAAAAAA", then "BBBBBBB" again and again.  The
    clock advances by one at every reading. *)
Definition env_A_then_B : Env :=
  mkEnv accepts_http (fun k => if k <? 7 then 26 else 27)%nat
        (fun k => (1000 + Z.of_nat k)%Z).

(** The random module yields 26 for ever: every generated code is
    "AAAAAAA". *)
Definition env_always_A : Env :=
  mkEnv accepts_http (fun _ => 26%nat) (fun k => (1000 + Z.of_nat k)%Z).

Definition doc_A : Document :=
  mkDocument "http://old.example/page" "AAAAAAA" 5 5.

Definition empty_world : World := mkWorld [] 0 0 [].
Definition seeded_world : World := mkWorld [doc_A] 0 0 [].

Definition req_new : ShortenRequest := mkShortenRequest "https://new.example/".
Definition req_bad : ShortenRequest := mkShortenRequest "not a url".
Definition req_other : ShortenRequest :=
  mkShortenRequest "http://other.example/a?b=c".
Definition info_local : Request :=
  mkRequest [("user-agent", "curl"); ("host", "localhost:8000")].
Definition info_no_host : Request := mkRequest [].

Definition doc_new_A : Document :=
  mkDocument "https://new.example/" "AAAAAAA" 1000 1001.
Definition doc_new_B : Document :=
  mkDocument "https://new.example/" "BBBBBBB" 1002 1003.
Definition doc_new_retry : Document :=
  mkDocument "https://new.example/" "BBBBBBB" 1000 1001.

(** The world after one [url_shorten] from [empty_world], and after a
    second one, under [env_A_then_B]. *)
Definition world_after_A : World :=
  mkWorld [doc_new_A] 7 2 [FindOne "AAAAAAA"; InsertOne doc_new_A].
Definition world_after_A_B : World :=
  mkWorld [doc_new_A; doc_new_B] 14 4
          [FindOne "AAAAAAA"; InsertOne doc_new_A;
           FindOne "BBBBBBB"; InsertOne doc_new_B].

Definition two_shortens : list Call :=
  [Shorten req_new info_local; Shorten req_new info_no_host].

(** The world after one [url_shorten] from [seeded_world] under
    [env_A_then_B], which collides once, and after a [url_resolve] of the
    new code. *)
Definition world_after_one_retry : World :=
  mkWorld [doc_A; doc_new_retry] 14 2
          [FindOne "AAAAAAA"; FindOne "BBBBBBB"; InsertOne doc_new_retry].
Definition world_after_retry : World :=
  log_call (FindOne "BBBBBBB") world_after_one_retry.

(** A deployment whose database answers, and one whose database is down. *)
Definition boot_up : Application.Boot :=
  Application.mkBoot (Some "mongodb://db:27017") (fun _ => true) true
                     "worker-1".
Definition boot_down : Application.Boot :=
  Application.mkBoot None (fun _ => true) false "worker-1".

(** A server on which nothing ran yet, a server after a start-up that went
    through, and one on which the worker's id was never set. *)
Definition new_server (w : World) : Application.Server :=
  Application.mkServer (Application.mkApp None None None) w [].
Definition started_server (w : World) : Application.Server :=
  Application.mkServer
    (Application.mkApp
       (Some (Application.mkClient (Some "mongodb://db:27017") false))
       (Some "take-home") (Some "worker-1"))
    w
    [Application.mkLogRecord Application.INFO
       "You successfully connected to MongoDB!"].
Definition half_started_server (w : World) : Application.Server :=
  Application.mkServer
    (Application.mkApp (Some (Application.mkClient None false))
                       (Some "take-home") None)
    w [].

Definition three_routes : list Application.Route :=
  [Application.POST_url_shorten req_new info_local;
   Application.GET_index;
   Application.GET_r "BBBBBBB"].

(** * Facts *)

(** ** The code generator *)

Lemma get_below (s : string) : forall i,
  (i < String.length s)%nat -> exists c, String.get i s = Some c.
Proof.
  induction s as [|a s IH]; intros i Hi; simpl in *.
  - lia.
  - destruct i as [|i]; [now exists a|]. apply IH. lia.
Qed.

Lemma all_chars_get (p : ascii -> bool) (s : string) : forall i c,
  all_chars p s = true -> String.get i s = Some c -> p c = true.
Proof.
  induction s as [|a s IH]; intros i c Hall Hget; simpl in *.
  - discriminate.
  - apply andb_true_iff in Hall as [Ha Hs].
    destruct i as [|i]; [congruence | eauto].
Qed.

Lemma base62_length : String.length base62 = 62%nat.
Proof. reflexivity. Qed.

Lemma base62_alphabet : all_chars is_alphabet_char base62 = true.
Proof. reflexivity. Qed.

(** [base62] holds the upper-case letters, the lower-case letters and the
    digits, and nothing else. *)
Lemma base62_is_the_alphabet (c : ascii) :
  is_alphabet_char c = occurs c base62.
Proof. destruct c as [[] [] [] [] [] [] [] []]; reflexivity. Qed.

Lemma advance_draws_0 (w : World) : advance_draws 0 w = w.
Proof. destruct w; unfold advance_draws; simpl; f_equal; lia. Qed.

Lemma advance_draws_add (n m : nat) (w : World) :
  advance_draws m (advance_draws n w) = advance_draws (n + m) w.
Proof. unfold advance_draws; simpl; f_equal; lia. Qed.

Section Generator.

Variable env : Env.

Lemma pick_get (d : nat) :
  String.get (entropy env d mod 62) base62 = Some (pick env d).
Proof.
  unfold pick.
  destruct (get_below base62 (entropy env d mod 62)) as [c Hc].
  - rewrite base62_length. apply Nat.mod_upper_bound. discriminate.
  - now rewrite Hc.
Qed.

Lemma pick_alphabet (d : nat) : is_alphabet_char (pick env d) = true.
Proof.
  eapply all_chars_get; [apply base62_alphabet | apply pick_get].
Qed.

Lemma random_choice_base62 (w : World) :
  random_choice env base62 w = Return (pick env (draws w)) (advance_draws 1 w).
Proof.
  unfold random_choice. rewrite base62_length, pick_get. reflexivity.
Qed.

Lemma join_choices_drawn (n : nat) : forall w,
  join_choices env base62 n w = Return (drawn env (draws w) n) (advance_draws n w).
Proof.
  induction n as [|n IH]; intros w; simpl.
  - unfold ret. now rewrite advance_draws_0.
  - unfold bind. rewrite random_choice_base62, IH. unfold ret.
    rewrite advance_draws_add. simpl.
    replace (draws w + 1)%nat with (S (draws w)) by lia. reflexivity.
Qed.

Lemma generate_id_drawn (n : nat) (w : World) :
  generate_id env n w = Return (drawn env (draws w) n) (advance_draws n w).
Proof. apply join_choices_drawn. Qed.

Lemma drawn_length (n : nat) : forall d, String.length (drawn env d n) = n.
Proof. induction n; intros d; simpl; [|rewrite IHn]; reflexivity. Qed.

Lemma drawn_alphabet (n : nat) : forall d,
  all_chars is_alphabet_char (drawn env d n) = true.
Proof.
  induction n; intros d; simpl; [reflexivity|].
  now rewrite pick_alphabet, IHn.
Qed.

Lemma drawn_well_formed (d : nat) : well_formed_code (drawn env d default_length).
Proof. split; [apply drawn_length | apply drawn_alphabet]. Qed.

End Generator.

(** ** The retry loop and the handlers *)

Section Handler_facts.

Variable env : Env.

Lemma candidate_drawn (w : World) (k : nat) :
  candidate env w k = drawn env (draws w + default_length * k) default_length.
Proof. unfold candidate. now rewrite generate_id_drawn. Qed.

Lemma candidate_well_formed (w : World) (k : nat) :
  well_formed_code (candidate env w k).
Proof. rewrite candidate_drawn. apply drawn_well_formed. Qed.

Lemma candidate_after_attempt (w : World) (c : string) (k : nat) :
  candidate env (after_attempt w c) k = candidate env w (S k).
Proof.
  rewrite !candidate_drawn. unfold after_attempt, advance_draws, log_call.
  cbn [draws]. f_equal. lia.
Qed.

Lemma candidate_0 (w : World) :
  candidate env w 0 = drawn env (draws w) default_length.
Proof. rewrite candidate_drawn. f_equal. lia. Qed.

Lemma loop_step (fuel : nat) (id : string) (d : Document) (w : World) :
  while_curr_url env (S fuel) id (Some d) w =
  while_curr_url env fuel (candidate env w 0)
    (lookup (candidate env w 0) (database w))
    (after_attempt w (candidate env w 0)).
Proof.
  rewrite candidate_0. simpl. unfold bind.
  rewrite generate_id_drawn. reflexivity.
Qed.

Lemma loop_exit (fuel : nat) (id : string) (w : World) :
  while_curr_url env fuel id None w = Return id w.
Proof. destruct fuel; reflexivity. Qed.

Lemma loop_return (fuel : nat) : forall id cur w id' w',
  while_curr_url env fuel id cur w = Return id' w' ->
  cur = lookup id (database w) ->
  well_formed_code id ->
  lookup id' (database w) = None /\ well_formed_code id' /\
  database w' = database w /\ ticks w' = ticks w.
Proof.
  induction fuel as [|fuel IH]; intros id cur w id' w' Hrun Hcur Hwf.
  - destruct cur; simpl in Hrun; [discriminate|].
    injection Hrun as <- <-. now rewrite <- Hcur.
  - destruct cur as [d|].
    + rewrite loop_step in Hrun.
      apply IH in Hrun; [exact Hrun | reflexivity | apply candidate_well_formed].
    + rewrite loop_exit in Hrun. injection Hrun as <- <-. now rewrite <- Hcur.
Qed.

Lemma loop_never_raises (fuel : nat) : forall id cur w e w',
  while_curr_url env fuel id cur w <> Raise e w'.
Proof.
  induction fuel as [|fuel IH]; intros id cur w e w'.
  - destruct cur; simpl; discriminate.
  - destruct cur as [d|]; [rewrite loop_step; apply IH | now rewrite loop_exit].
Qed.

Lemma loop_more_fuel (fuel : nat) : forall id cur w id' w' extra,
  while_curr_url env fuel id cur w = Return id' w' ->
  while_curr_url env (fuel + extra) id cur w = Return id' w'.
Proof.
  induction fuel as [|fuel IH]; intros id cur w id' w' extra Hrun.
  - destruct cur; simpl in Hrun; [discriminate|].
    now rewrite loop_exit.
  - destruct cur as [d|].
    + rewrite loop_step in Hrun. simpl Nat.add. rewrite loop_step. now apply IH.
    + now rewrite loop_exit in *.
Qed.

Lemma loop_diverges (fuel : nat) : forall id d w,
  (forall k, lookup (candidate env w k) (database w) <> None) ->
  while_curr_url env fuel id (Some d) w = OutOfFuel.
Proof.
  induction fuel as [|fuel IH]; intros id d w Hall; [reflexivity|].
  rewrite loop_step.
  destruct (lookup (candidate env w 0) (database w)) as [d'|] eqn:Hl.
  - apply IH. intros k. rewrite candidate_after_attempt. apply Hall.
  - now apply Hall in Hl.
Qed.

Lemma loop_returns_after (k : nat) : forall fuel id d w,
  (forall j, (j < k)%nat -> lookup (candidate env w j) (database w) <> None) ->
  lookup (candidate env w k) (database w) = None ->
  (k < fuel)%nat ->
  exists w', while_curr_url env fuel id (Some d) w = Return (candidate env w k) w'.
Proof.
  induction k as [|k IH]; intros fuel id d w Hbefore Hfresh Hfuel;
    (destruct fuel as [|fuel]; [lia|]); rewrite loop_step.
  - rewrite Hfresh, loop_exit. eauto.
  - destruct (lookup (candidate env w 0) (database w)) as [d'|] eqn:Hl.
    + destruct (IH fuel (candidate env w 0) d' (after_attempt w (candidate env w 0)))
        as [w' Hw'].
      * intros j Hj. rewrite candidate_after_attempt. apply Hbefore. lia.
      * rewrite candidate_after_attempt. exact Hfresh.
      * lia.
      * rewrite candidate_after_attempt in Hw'. eauto.
    + exfalso. apply (Hbefore 0%nat); [lia | exact Hl].
Qed.

Lemma url_shorten_valid (fuel : nat) (request : ShortenRequest) (info : Request)
      (w : World) :
  validators_url env (url request) = true ->
  url_shorten env fuel request info w =
  match while_curr_url env fuel (candidate env w 0)
          (lookup (candidate env w 0) (database w))
          (after_attempt w (candidate env w 0)) with
  | Return id w1 =>
      Return (JSONResponse (short_link info id) 201)
        (log_call (InsertOne (new_document env request id w))
           (set_database (database w1 ++ [new_document env request id w])
              (advance_ticks 1 (advance_ticks 1 w1))))
  | Raise e w1 => Raise e w1
  | OutOfFuel => OutOfFuel
  end.
Proof.
  intros Hv. unfold url_shorten. rewrite Hv. cbn [negb].
  rewrite candidate_0. unfold bind at 1. rewrite generate_id_drawn.
  unfold bind at 1. unfold find_one at 1.
  unfold bind at 1. fold (after_attempt w (drawn env (draws w) default_length)).
  destruct (while_curr_url env fuel _ _ _) as [id w1| |] eqn:Hloop;
    try reflexivity.
  apply loop_return in Hloop as (_ & _ & _ & Ht);
    [|reflexivity| apply drawn_well_formed].
  simpl in Ht.
  unfold bind, now, insert_one, ret, new_document, short_link. simpl.
  rewrite Ht. repeat f_equal; lia.
Qed.

End Handler_facts.

(** ** The collection *)

Lemma lookup_none_iff (k : string) (db : list Document) :
  lookup k db = None <-> ~ In k (codes db).
Proof.
  unfold lookup, codes. induction db as [|d db IH]; simpl.
  - tauto.
  - destruct (String.eqb_spec (short_url d) k) as [E|E].
    + split; [discriminate | intros H; exfalso; apply H; now left].
    + rewrite IH. tauto.
Qed.

Lemma lookup_some (k : string) (db : list Document) (d : Document) :
  lookup k db = Some d -> In d db /\ short_url d = k.
Proof.
  unfold lookup. intros H. apply find_some in H as [Hin Heq].
  split; [exact Hin | now apply String.eqb_eq].
Qed.

Lemma lookup_app (k : string) (db extra : list Document) :
  lookup k (db ++ extra) =
  match lookup k db with
  | Some d => Some d
  | None => lookup k extra
  end.
Proof.
  unfold lookup. induction db as [|d db IH]; simpl; [reflexivity|].
  destruct (String.eqb (short_url d) k); [reflexivity | exact IH].
Qed.

Lemma lookup_unique (k : string) (db : list Document) (d : Document) :
  NoDup (codes db) -> In d db -> short_url d = k -> lookup k db = Some d.
Proof.
  unfold lookup, codes. induction db as [|x db IH]; simpl; intros Hnd Hin Hk.
  - contradiction.
  - inversion Hnd as [|? ? Hx Hnd']; subst.
    destruct Hin as [->|Hin].
    + now rewrite String.eqb_refl.
    + destruct (String.eqb_spec (short_url x) (short_url d)) as [E|E].
      * exfalso. apply Hx. rewrite E. now apply in_map.
      * now apply IH.
Qed.

Lemma codes_app (db extra : list Document) :
  codes (db ++ extra) = (codes db ++ codes extra)%list.
Proof. apply map_app. Qed.

Lemma NoDup_snoc {A : Type} (l : list A) (a : A) :
  NoDup l -> ~ In a l -> NoDup (l ++ [a]).
Proof.
  induction l as [|x l IH]; simpl; intros Hnd Ha.
  - constructor; [tauto | constructor].
  - inversion Hnd as [|? ? Hx Hnd']; subst. constructor.
    + rewrite in_app_iff. simpl. intros [H|[H|[]]]; [tauto|]. subst. tauto.
    + apply IH; tauto.
Qed.

(** ** Strings *)

Lemma strip_prefix_append (p s : string) : strip_prefix p (p ++ s) = Some s.
Proof.
  induction p as [|a p IH]; simpl; [now destruct s|].
  now rewrite Ascii.eqb_refl.
Qed.

Lemma append_cancel (p a b : string) : p ++ a = p ++ b -> a = b.
Proof.
  intros H. assert (E : Some a = Some b).
  { rewrite <- (strip_prefix_append p a), <- (strip_prefix_append p b).
    now rewrite H. }
  now injection E.
Qed.

Lemma append_assoc (a b c : string) : (a ++ b) ++ c = a ++ (b ++ c).
Proof. induction a as [|x a IH]; simpl; [reflexivity | now rewrite IH]. Qed.

Lemma append_length (a b : string) :
  String.length (a ++ b) = (String.length a + String.length b)%nat.
Proof. induction a as [|x a IH]; simpl; [reflexivity | now rewrite IH]. Qed.

(** ** The two handlers *)

Section Service_facts.

Variable env : Env.

Lemma url_shorten_invalid (fuel : nat) (request : ShortenRequest)
      (info : Request) (w : World) :
  validators_url env (url request) = false ->
  url_shorten env fuel request info w =
  Raise (HTTPException 400 (url request ++ " is not a valid url")) w.
Proof. intros Hv. unfold url_shorten. now rewrite Hv. Qed.

Lemma url_shorten_return (fuel : nat) (request : ShortenRequest)
      (info : Request) (w : World) (r : Response) (w' : World) :
  url_shorten env fuel request info w = Return r w' ->
  exists id,
    validators_url env (url request) = true /\
    well_formed_code id /\
    lookup id (database w) = None /\
    r = JSONResponse (short_link info id) 201 /\
    database w' = (database w ++ [new_document env request id w])%list /\
    ticks w' = (ticks w + 2)%nat.
Proof.
  intros Hrun. destruct (validators_url env (url request)) eqn:Hv.
  - rewrite url_shorten_valid in Hrun by exact Hv.
    destruct (while_curr_url env fuel _ _ _) as [id w1| |] eqn:Hloop;
      try discriminate.
    injection Hrun as <- <-.
    apply loop_return in Hloop as (Hfresh & Hwf & Hdb & Ht);
      [|reflexivity | apply candidate_well_formed].
    exists id. simpl in *. rewrite Hdb, Ht.
    repeat split; try tauto; try apply Hwf. lia.
  - rewrite url_shorten_invalid in Hrun by exact Hv. discriminate.
Qed.

Lemma url_shorten_raise (fuel : nat) (request : ShortenRequest)
      (info : Request) (w : World) (e : Exception) (w' : World) :
  url_shorten env fuel request info w = Raise e w' ->
  validators_url env (url request) = false /\
  e = HTTPException 400 (url request ++ " is not a valid url") /\ w' = w.
Proof.
  intros Hrun. destruct (validators_url env (url request)) eqn:Hv.
  - rewrite url_shorten_valid in Hrun by exact Hv.
    destruct (while_curr_url env fuel _ _ _) as [id w1|e1 w1|] eqn:Hloop;
      try discriminate.
    now apply loop_never_raises in Hloop.
  - rewrite url_shorten_invalid in Hrun by exact Hv.
    injection Hrun as <- <-. auto.
Qed.

Lemma url_shorten_more_fuel (fuel extra : nat) (request : ShortenRequest)
      (info : Request) (w : World) (r : Response) (w' : World) :
  url_shorten env fuel request info w = Return r w' ->
  url_shorten env (fuel + extra) request info w = Return r w'.
Proof.
  intros Hrun. destruct (validators_url env (url request)) eqn:Hv.
  - rewrite url_shorten_valid in * by exact Hv.
    destruct (while_curr_url env fuel _ _ _) as [id w1| |] eqn:Hloop;
      try discriminate.
    now rewrite (loop_more_fuel env fuel _ _ _ _ _ extra Hloop).
  - rewrite url_shorten_invalid in Hrun by exact Hv. discriminate.
Qed.

Lemma url_shorten_diverges (fuel : nat) (request : ShortenRequest)
      (info : Request) (w : World) :
  validators_url env (url request) = true ->
  (forall k, lookup (candidate env w k) (database w) <> None) ->
  url_shorten env fuel request info w = OutOfFuel.
Proof.
  intros Hv Hall. rewrite url_shorten_valid by exact Hv.
  destruct (lookup (candidate env w 0) (database w)) as [d|] eqn:Hl.
  - rewrite loop_diverges; [reflexivity|].
    intros k. rewrite candidate_after_attempt. apply Hall.
  - now apply Hall in Hl.
Qed.

Lemma url_shorten_returns_after (k fuel : nat) (request : ShortenRequest)
      (info : Request) (w : World) :
  validators_url env (url request) = true ->
  (forall j, (j < k)%nat -> lookup (candidate env w j) (database w) <> None) ->
  lookup (candidate env w k) (database w) = None ->
  (k <= fuel)%nat ->
  exists w',
    url_shorten env fuel request info w =
    Return (JSONResponse (short_link info (candidate env w k)) 201) w'.
Proof.
  intros Hv Hbefore Hfresh Hfuel. rewrite url_shorten_valid by exact Hv.
  destruct k as [|k].
  - rewrite Hfresh, loop_exit. eauto.
  - destruct (lookup (candidate env w 0) (database w)) as [d|] eqn:Hl.
    + destruct (loop_returns_after env k fuel (candidate env w 0) d
                  (after_attempt w (candidate env w 0))) as [w1 Hw1].
      * intros j Hj. rewrite candidate_after_attempt. apply Hbefore. lia.
      * rewrite candidate_after_attempt. exact Hfresh.
      * lia.
      * rewrite Hw1, candidate_after_attempt. eauto.
    + exfalso. apply (Hbefore 0%nat); [lia | exact Hl].
Qed.

Lemma url_resolve_found (k : string) (w : World) (d : Document) :
  lookup k (database w) = Some d ->
  url_resolve k w =
  Return (RedirectResponse (original_url d)) (log_call (FindOne k) w).
Proof.
  intros Hl. unfold url_resolve, bind, find_one. now rewrite Hl.
Qed.

Lemma url_resolve_absent (k : string) (w : World) :
  lookup k (database w) = None ->
  url_resolve k w =
  Raise (HTTPException 404 (k ++ " not found")) (log_call (FindOne k) w).
Proof.
  intros Hl. unfold url_resolve, bind, find_one. now rewrite Hl.
Qed.

End Service_facts.

(** ** Sequences of calls *)

Section Sequence_facts.

Variable env : Env.

Lemma loop_out_of_fuel (fuel : nat) : forall id d w,
  (forall j, (j < fuel)%nat -> lookup (candidate env w j) (database w) <> None) ->
  while_curr_url env fuel id (Some d) w = OutOfFuel.
Proof.
  induction fuel as [|fuel IH]; intros id d w Hall; [reflexivity|].
  rewrite loop_step.
  destruct (lookup (candidate env w 0) (database w)) as [d'|] eqn:Hl.
  - apply IH. intros j Hj. rewrite candidate_after_attempt. apply Hall. lia.
  - exfalso. apply (Hall 0%nat); [lia | exact Hl].
Qed.

Lemma url_shorten_out_of_fuel (fuel : nat) (request : ShortenRequest)
      (info : Request) (w : World) :
  validators_url env (url request) = true ->
  (forall j, (j <= fuel)%nat -> lookup (candidate env w j) (database w) <> None) ->
  url_shorten env fuel request info w = OutOfFuel.
Proof.
  intros Hv Hall. rewrite url_shorten_valid by exact Hv.
  destruct (lookup (candidate env w 0) (database w)) as [d|] eqn:Hl.
  - rewrite loop_out_of_fuel; [reflexivity|].
    intros j Hj. rewrite candidate_after_attempt. apply Hall. lia.
  - exfalso. apply (Hall 0%nat); [lia | exact Hl].
Qed.

Lemma short_link_code (info : Request) (id : string) :
  strip_prefix (format_value (headers_get info "host") ++ "/r/")
    (short_link info id) = Some id.
Proof.
  unfold short_link.
  rewrite <- (append_assoc (format_value (headers_get info "host")) "/r/" id).
  apply strip_prefix_append.
Qed.

Lemma short_link_inj (info : Request) (a b : string) :
  short_link info a = short_link info b -> a = b.
Proof.
  unfold short_link. intros H.
  apply append_cancel in H. now apply append_cancel in H.
Qed.

(** One call either is a successful [url_shorten], which appends one
    document under a code that was not in the collection, or leaves the
    collection as it is and hands out no code. *)
Lemma respond_effect (fuel : nat) (c : Call) (w : World) (o : Outcome)
      (w1 : World) :
  respond env fuel c w = Some (o, w1) ->
  (exists request info id,
      c = Shorten request info /\
      well_formed_code id /\
      lookup id (database w) = None /\
      returned_code c o = Some id /\
      database w1 = (database w ++ [new_document env request id w])%list) \/
  (returned_code c o = None /\ database w1 = database w).
Proof.
  unfold respond. destruct c as [request info|k]; simpl handle.
  - destruct (url_shorten env fuel request info w) as [r w'|e w'|] eqn:Hrun;
      intros H; try discriminate; injection H as <- <-.
    + apply url_shorten_return in Hrun
        as (id & _ & Hwf & Hfresh & -> & Hdb & _).
      left. exists request, info, id. simpl.
      rewrite short_link_code. auto.
    + apply url_shorten_raise in Hrun as (_ & _ & ->). now right.
  - destruct (lookup k (database w)) as [d|] eqn:Hl.
    + rewrite (url_resolve_found k w d Hl). intros H. injection H as <- <-.
      now right.
    + rewrite (url_resolve_absent k w Hl). intros H. injection H as <- <-.
      now right.
Qed.

Lemma serve_cons (fuel : nat) (c : Call) (cs : list Call) (w : World)
      (os : list Outcome) (w' : World) :
  serve env fuel (c :: cs) w = Some (os, w') ->
  exists o os1 w1,
    os = o :: os1 /\ respond env fuel c w = Some (o, w1) /\
    serve env fuel cs w1 = Some (os1, w').
Proof.
  simpl. destruct (respond env fuel c w) as [[o w1]|]; [|discriminate].
  destruct (serve env fuel cs w1) as [[os1 w2]|] eqn:Hrest; [|discriminate].
  intros H. injection H as <- <-. exists o, os1, w1. auto.
Qed.

Lemma serve_codes (fuel : nat) (cs : list Call) : forall w os w',
  serve env fuel cs w = Some (os, w') ->
  NoDup (codes (database w)) ->
  NoDup (codes (database w')) /\
  NoDup (returned_codes cs os) /\
  incl (codes (database w)) (codes (database w')) /\
  (forall k, In k (returned_codes cs os) ->
             ~ In k (codes (database w)) /\ In k (codes (database w'))).
Proof.
  induction cs as [|c cs IH]; intros w os w' Hrun Hnd.
  - simpl in Hrun. injection Hrun as <- <-. simpl.
    repeat split; try tauto; [constructor | apply incl_refl].
  - apply serve_cons in Hrun as (o & os1 & w1 & -> & Hstep & Hrest).
    apply respond_effect in Hstep
      as [(request & info & id & -> & Hwf & Hfresh & Hcode & Hdb)|[Hcode Hdb]].
    + apply lookup_none_iff in Hfresh.
      assert (Hnd1 : NoDup (codes (database w1))).
      { rewrite Hdb, codes_app. simpl. now apply NoDup_snoc. }
      destruct (IH _ _ _ Hrest Hnd1) as (Hnd' & Hret & Hincl & Hnew).
      assert (Hid1 : In id (codes (database w1))).
      { rewrite Hdb, codes_app, in_app_iff. simpl. auto. }
      assert (Hold : incl (codes (database w)) (codes (database w1))).
      { intros x Hx. rewrite Hdb, codes_app, in_app_iff. auto. }
      cbn [returned_codes]. rewrite Hcode. repeat split.
      * exact Hnd'.
      * constructor; [|exact Hret]. intros Hin. now apply Hnew in Hin.
      * intros x Hx. auto.
      * destruct H as [<-|Hin]; [exact Hfresh|].
        apply Hnew in Hin. intros Hx. apply (proj1 Hin). auto.
      * destruct H as [<-|Hin]; [auto | now apply Hnew].
    + rewrite <- Hdb in Hnd.
      destruct (IH _ _ _ Hrest Hnd) as (Hnd' & Hret & Hincl & Hnew).
      cbn [returned_codes]. rewrite Hcode, <- Hdb. auto.
Qed.

Lemma serve_stamps (fuel : nat) (cs : list Call) : forall w os w',
  serve env fuel cs w = Some (os, w') ->
  exists added,
    database w' = (database w ++ added)%list /\ Forall (stamped env) added.
Proof.
  induction cs as [|c cs IH]; intros w os w' Hrun.
  - simpl in Hrun. injection Hrun as <- <-. exists [].
    now rewrite app_nil_r.
  - apply serve_cons in Hrun as (o & os1 & w1 & -> & Hstep & Hrest).
    destruct (IH _ _ _ Hrest) as (added & Hdb' & Hst).
    apply respond_effect in Hstep
      as [(request & info & id & _ & _ & _ & _ & Hdb)|[_ Hdb]].
    + exists (new_document env request id w :: added). split.
      * rewrite Hdb', Hdb, <- app_assoc. reflexivity.
      * constructor; [|exact Hst]. now exists (ticks w).
    + exists added. now rewrite Hdb', Hdb.
Qed.

Lemma serve_resolves (fuel : nat) (ks : list string) : forall w,
  exists w',
    serve env fuel (map Resolve ks) w =
      Some (map (resolve_outcome (database w)) ks, w') /\
    database w' = database w /\ draws w' = draws w /\ ticks w' = ticks w /\
    calls w' = (calls w ++ map FindOne ks)%list.
Proof.
  induction ks as [|k ks IH]; intros w.
  - exists w. simpl. now rewrite app_nil_r.
  - destruct (IH (log_call (FindOne k) w)) as (w' & Hrun & Hdb & Hd & Ht & Hc).
    exists w'. simpl map. cbn [serve]. unfold respond, handle, resolve_outcome at 1.
    destruct (lookup k (database w)) as [d|] eqn:Hl.
    + rewrite (url_resolve_found k w d Hl), Hrun. simpl in *.
      rewrite Hc, <- app_assoc. auto.
    + rewrite (url_resolve_absent k w Hl), Hrun. simpl in *.
      rewrite Hc, <- app_assoc. auto.
Qed.

End Sequence_facts.

(** ** The history of the collection *)

Section History_facts.

Variable env : Env.

Lemma attempts_fields (k : nat) : forall w,
  database (attempts env w k) = database w /\
  ticks (attempts env w k) = ticks w /\
  draws (attempts env w k) = (draws w + default_length * k)%nat /\
  calls (attempts env w k) = (calls w ++ attempt_calls env w k)%list.
Proof.
  induction k as [|k IH]; intros w.
  - simpl. unfold attempt_calls. simpl. rewrite app_nil_r.
    repeat split; lia.
  - cbn [attempts].
    destruct (IH (after_attempt w (candidate env w 0))) as (Hdb & Ht & Hd & Hc).
    rewrite Hdb, Ht, Hd, Hc. unfold attempt_calls.
    cbn [seq map]. rewrite <- seq_shift, map_map.
    unfold after_attempt at 1 2 3 4. simpl.
    repeat split; try (unfold default_length; lia).
    rewrite <- app_assoc. simpl. f_equal. f_equal.
    apply map_ext. intros j. now rewrite candidate_after_attempt.
Qed.

Lemma loop_return_attempts (fuel : nat) : forall id d w id' w',
  while_curr_url env fuel id (Some d) w = Return id' w' ->
  exists k,
    (k < fuel)%nat /\
    (forall j, (j < k)%nat -> lookup (candidate env w j) (database w) <> None) /\
    lookup (candidate env w k) (database w) = None /\
    id' = candidate env w k /\
    w' = attempts env w (S k).
Proof.
  induction fuel as [|fuel IH]; intros id d w id' w' Hrun;
    [discriminate|].
  rewrite loop_step in Hrun.
  destruct (lookup (candidate env w 0) (database w)) as [d'|] eqn:Hl.
  - apply IH in Hrun as (k & Hk & Hbefore & Hfresh & -> & ->).
    exists (S k). split; [lia|]. split; [|split; [|split]].
    + intros [|j] Hj; [now rewrite Hl|].
      rewrite <- candidate_after_attempt with (c := candidate env w 0).
      apply Hbefore. lia.
    + now rewrite candidate_after_attempt in Hfresh.
    + apply candidate_after_attempt.
    + reflexivity.
  - rewrite loop_exit in Hrun. injection Hrun as <- <-.
    exists 0%nat. split; [lia|]. split; [intros j Hj; lia|]. auto.
Qed.

(** A [url_shorten] that returns has met some number [k] of collisions,
    within its [fuel], and has taken the first code that was free. *)
Lemma url_shorten_return_attempts (fuel : nat) (request : ShortenRequest)
      (info : Request) (w : World) (r : Response) (w' : World) :
  url_shorten env fuel request info w = Return r w' ->
  exists k,
    (k <= fuel)%nat /\
    (forall j, (j < k)%nat -> lookup (candidate env w j) (database w) <> None) /\
    lookup (candidate env w k) (database w) = None /\
    r = JSONResponse (short_link info (candidate env w k)) 201 /\
    w' = log_call (InsertOne (new_document env request (candidate env w k) w))
           (set_database
              (database w ++ [new_document env request (candidate env w k) w])
              (advance_ticks 1 (advance_ticks 1 (attempts env w (S k))))).
Proof.
  intros Hrun. destruct (validators_url env (url request)) eqn:Hv.
  - rewrite url_shorten_valid in Hrun by exact Hv.
    destruct (lookup (candidate env w 0) (database w)) as [d|] eqn:Hl.
    + destruct (while_curr_url env fuel _ _ _) as [id w1| |] eqn:Hloop;
        try discriminate.
      apply loop_return_attempts in Hloop as (k & Hk & Hbefore & Hfresh & -> & ->).
      injection Hrun as <- <-. exists (S k). split; [lia|].
      rewrite candidate_after_attempt in *. split; [|split; [|split]].
      * intros [|j] Hj; [now rewrite Hl|].
        rewrite <- candidate_after_attempt with (c := candidate env w 0).
        apply Hbefore. lia.
      * exact Hfresh.
      * reflexivity.
      * destruct (attempts_fields (S k) (after_attempt w (candidate env w 0)))
          as (Hdb & _). cbn [attempts] in Hdb. rewrite Hdb. reflexivity.
    + rewrite loop_exit in Hrun. injection Hrun as <- <-.
      exists 0%nat. split; [lia|]. split; [intros j Hj; lia|]. auto.
  - rewrite url_shorten_invalid in Hrun by exact Hv. discriminate.
Qed.

Lemma returned_mapping_short_link (request : ShortenRequest) (info : Request)
      (id : string) (status : nat) :
  returned_mapping (Shorten request info)
    (Responded (JSONResponse (short_link info id) status)) =
  Some (id, url request).
Proof. simpl. now rewrite short_link_code. Qed.

(** One call, with what the properties below need of it: a successful
    [url_shorten] had a valid URL, took two readings of the clock and
    appended its document; every other call leaves collection and clock. *)
Lemma respond_cases (fuel : nat) (c : Call) (w : World) (o : Outcome)
      (w1 : World) :
  respond env fuel c w = Some (o, w1) ->
  (exists request info id,
      c = Shorten request info /\
      validators_url env (url request) = true /\
      well_formed_code id /\
      lookup id (database w) = None /\
      o = Responded (JSONResponse (short_link info id) 201) /\
      database w1 = (database w ++ [new_document env request id w])%list /\
      ticks w1 = (ticks w + 2)%nat) \/
  (returned_mapping c o = None /\ database w1 = database w /\
   ticks w1 = ticks w).
Proof.
  unfold respond. destruct c as [request info|k]; simpl handle.
  - destruct (url_shorten env fuel request info w) as [r w'|e w'|] eqn:Hrun;
      intros H; try discriminate; injection H as <- <-.
    + apply url_shorten_return in Hrun
        as (id & Hv & Hwf & Hfresh & -> & Hdb & Ht).
      left. exists request, info, id. auto 10.
    + apply url_shorten_raise in Hrun as (_ & _ & ->). now right.
  - destruct (lookup k (database w)) as [d|] eqn:Hl.
    + rewrite (url_resolve_found k w d Hl). intros H. injection H as <- <-.
      now right.
    + rewrite (url_resolve_absent k w Hl). intros H. injection H as <- <-.
      now right.
Qed.

Lemma stamps_ordered_later (ds : list Document) : forall t t' tend,
  (t' <= t)%nat -> stamps_ordered env t ds tend -> stamps_ordered env t' ds tend.
Proof.
  destruct ds as [|d ds]; simpl; intros t t' tend Hle H.
  - lia.
  - destruct H as (t0 & Ht0 & H). exists t0. split; [lia | exact H].
Qed.

Lemma serve_history (fuel : nat) (cs : list Call) : forall w os w',
  serve env fuel cs w = Some (os, w') ->
  exists added,
    database w' = (database w ++ added)%list /\
    map mapping_of added = returned_mappings cs os /\
    Forall (fun d => validators_url env (original_url d) = true /\
                     well_formed_code (short_url d)) added /\
    stamps_ordered env (ticks w) added (ticks w').
Proof.
  induction cs as [|c cs IH]; intros w os w' Hrun.
  - simpl in Hrun. injection Hrun as <- <-. exists []. simpl.
    rewrite app_nil_r. auto.
  - apply serve_cons in Hrun as (o & os1 & w1 & -> & Hstep & Hrest).
    destruct (IH _ _ _ Hrest) as (added & Hdb' & Hmap & Hall & Hst).
    apply respond_cases in Hstep
      as [(request & info & id & -> & Hv & Hwf & _ & -> & Hdb & Ht)
         |(Hnone & Hdb & Ht)].
    + exists (new_document env request id w :: added).
      cbn [returned_mappings]. rewrite returned_mapping_short_link.
      split; [|split; [|split]].
      * rewrite Hdb', Hdb, <- app_assoc. reflexivity.
      * simpl. now rewrite Hmap.
      * constructor; [simpl; auto | exact Hall].
      * simpl. exists (ticks w). rewrite <- Ht. auto.
    + exists added. cbn [returned_mappings]. rewrite Hnone, Hdb', Hdb, <- Ht.
      auto.
Qed.

Lemma stamps_ordered_from (monotone : forall a b, (a <= b)%nat ->
                                       (clock env a <= clock env b)%Z)
      (ds : list Document) : forall t tend,
  stamps_ordered env t ds tend ->
  Forall (fun d => (clock env t <= created_at d)%Z) ds.
Proof.
  induction ds as [|d ds IH]; intros t tend H; [constructor|].
  destruct H as (t' & Ht' & Hc & _ & Hrest). constructor.
  - rewrite Hc. now apply monotone.
  - apply IH in Hrest. eapply Forall_impl; [|exact Hrest].
    intros x Hx. simpl in Hx.
    assert ((clock env t <= clock env (t' + 2))%Z) by (apply monotone; lia).
    lia.
Qed.

End History_facts.

Section Further_facts.

Variable env : Env.

Lemma respond_shorten_responded (fuel : nat) (request : ShortenRequest)
      (info : Request) (w : World) (r : Response) (w1 : World) :
  respond env fuel (Shorten request info) w = Some (Responded r, w1) ->
  url_shorten env fuel request info w = Return r w1.
Proof.
  unfold respond. simpl handle.
  destruct (url_shorten env fuel request info w) as [r' w'|e w'|];
    intros H; try discriminate. now injection H as <- <-.
Qed.

Lemma url_resolve_return (k : string) (w : World) (r : Response) (w0 : World) :
  url_resolve k w = Return r w0 ->
  exists d, lookup k (database w) = Some d /\
            r = RedirectResponse (original_url d).
Proof.
  destruct (lookup k (database w)) as [d|] eqn:Hl.
  - rewrite (url_resolve_found k w d Hl). intros H. injection H as <- _.
    now exists d.
  - rewrite (url_resolve_absent k w Hl). discriminate.
Qed.

Lemma lookup_new (db : list Document) (d : Document) :
  lookup (short_url d) db = None ->
  lookup (short_url d) (db ++ [d]) = Some d.
Proof.
  intros Hl. rewrite lookup_app, Hl. unfold lookup. simpl.
  now rewrite String.eqb_refl.
Qed.

End Further_facts.

Section Order_facts.

Variable env : Env.

Hypothesis monotone :
  forall a b, (a <= b)%nat -> (clock env a <= clock env b)%Z.

Lemma stamps_ordered_sorted (ds : list Document) : forall t tend,
  stamps_ordered env t ds tend ->
  Forall (fun d => (created_at d <= updated_at d)%Z) ds /\
  StronglySorted (fun a b => (updated_at a <= created_at b)%Z) ds.
Proof.
  induction ds as [|d ds IH]; intros t tend H.
  - split; constructor.
  - destruct H as (t' & Ht' & Hc & Hu & Hrest).
    destruct (IH _ _ Hrest) as (Hle & Hsorted).
    split; constructor; try assumption.
    + rewrite Hc, Hu. apply monotone. lia.
    + apply (stamps_ordered_from env monotone) in Hrest.
      eapply Forall_impl; [|exact Hrest]. intros x Hx. simpl in Hx.
      rewrite Hu.
      assert ((clock env (S t') <= clock env (t' + 2))%Z)
        by (apply monotone; lia).
      lia.
Qed.

End Order_facts.

Lemma base62_get_injective (i j : nat) (c : ascii) :
  (i < 62)%nat -> (j < 62)%nat ->
  String.get i base62 = Some c -> String.get j base62 = Some c -> i = j.
Proof.
  intros Hi Hj Gi Gj.
  assert (Hcheck : base62_distinct_check = true) by (vm_compute; reflexivity).
  unfold base62_distinct_check in Hcheck.
  rewrite forallb_forall in Hcheck.
  specialize (Hcheck i). rewrite in_seq in Hcheck.
  assert (Hrow := Hcheck ltac:(lia)). rewrite forallb_forall in Hrow.
  specialize (Hrow j). rewrite in_seq in Hrow.
  assert (H := Hrow ltac:(lia)). rewrite Gi, Gj, Ascii.eqb_refl in H.
  now apply Nat.eqb_eq.
Qed.

Lemma pick_eq_iff (env1 env2 : Env) (d1 d2 : nat) :
  pick env1 d1 = pick env2 d2 <->
  (entropy env1 d1 mod 62 = entropy env2 d2 mod 62)%nat.
Proof.
  split; intros H.
  - apply (base62_get_injective _ _ (pick env1 d1)).
    + apply Nat.mod_upper_bound. discriminate.
    + apply Nat.mod_upper_bound. discriminate.
    + apply pick_get.
    + rewrite H. apply pick_get.
  - unfold pick. now rewrite H.
Qed.

Lemma drawn_eq_iff (env1 env2 : Env) (n : nat) : forall d1 d2,
  drawn env1 d1 n = drawn env2 d2 n <->
  (forall i, (i < n)%nat ->
     entropy env1 (d1 + i) mod 62 = entropy env2 (d2 + i) mod 62)%nat.
Proof.
  induction n as [|n IH]; intros d1 d2; simpl.
  - split; [intros _ i Hi; lia | reflexivity].
  - split.
    + intros H. injection H as Hp Hrest.
      apply pick_eq_iff in Hp. rewrite IH in Hrest.
      intros [|i] Hi.
      * now rewrite !Nat.add_0_r.
      * replace (d1 + S i)%nat with (S d1 + i)%nat by lia.
        replace (d2 + S i)%nat with (S d2 + i)%nat by lia.
        apply Hrest. lia.
    + intros H. f_equal.
      * apply pick_eq_iff. specialize (H 0%nat).
        rewrite !Nat.add_0_r in H. apply H. lia.
      * apply IH. intros i Hi.
        replace (S d1 + i)%nat with (d1 + S i)%nat by lia.
        replace (S d2 + i)%nat with (d2 + S i)%nat by lia.
        apply H. lia.
Qed.

(** ** The application *)

Section Application_facts.

Import Application(Level(..), LogRecord(..), Client(..), App(..), Server(..),
                   Boot(..), Fault(..), Out(..), Route(..), Reply(..),
                   level, message, uri, closed, mongodb_client, app_database,
                   worker_id, app, world, log,
                   set_world, set_app, add_log, lift, logging_info,
                   logging_error, get_worker_id, get_database,
                   collection_find_one, collection_insert_one, index,
                   dispatch, run, call_of, calls_of, outcome_of, outcomes_of,
                   started, regenerating, inserted, invalid_url, handled_by,
                   was_not_found).

Variable env : Env.
Variable wid : string.

Lemma server_eta (s : Server) : mkServer (app s) (world s) (log s) = s.
Proof. now destruct s. Qed.

Lemma started_worker_id (s : Server) :
  started wid s -> get_worker_id s = Done wid s.
Proof. intros [Hw _]. unfold get_worker_id. now rewrite Hw. Qed.

Lemma started_find_one (k : string) (s : Server) :
  started wid s ->
  collection_find_one k s =
  Done (lookup k (database (world s)))
       (set_world (log_call (FindOne k) (world s)) s).
Proof.
  intros [_ Hdb]. unfold collection_find_one, Application.bind, get_database.
  destruct (app_database (app s)); [reflexivity | congruence].
Qed.

Lemma started_insert_one (d : Document) (s : Server) :
  started wid s ->
  collection_insert_one d s =
  Done tt (set_world
             (log_call (InsertOne d)
                (set_database (database (world s) ++ [d]) (world s))) s).
Proof.
  intros [_ Hdb]. unfold collection_insert_one, Application.bind, get_database.
  destruct (app_database (app s)); [reflexivity | congruence].
Qed.

Lemma lift_generate_id (s : Server) :
  lift (generate_id env default_length) s =
  Done (candidate env (world s) 0)
       (set_world (advance_draws default_length (world s)) s).
Proof.
  unfold lift. now rewrite generate_id_drawn, candidate_0.
Qed.

Lemma app_loop_step (fuel : nat) (id : string) (d : Document) (s : Server) :
  started wid s ->
  Application.while_curr_url env (S fuel) id (Some d) s =
  Application.while_curr_url env fuel (candidate env (world s) 0)
    (lookup (candidate env (world s) 0) (database (world s)))
    (mkServer (app s)
       (after_attempt (world s) (candidate env (world s) 0))
       (log s ++ [regenerating wid])).
Proof.
  intros Hs. cbn [Application.while_curr_url].
  unfold Application.bind at 1. rewrite (started_worker_id s Hs).
  unfold Application.bind at 1. unfold logging_info at 1.
  unfold Application.bind at 1. rewrite lift_generate_id.
  unfold Application.bind at 1. rewrite started_find_one by exact Hs.
  reflexivity.
Qed.

Lemma app_loop_exit (fuel : nat) (id : string) (s : Server) :
  Application.while_curr_url env fuel id None s = Done id s.
Proof. destruct fuel; reflexivity. Qed.

(** The loop with its log line does what the loop above does, and writes
    one record per iteration. *)
Lemma app_loop_refines (fuel : nat) : forall id cur s,
  started wid s ->
  match while_curr_url env fuel id cur (world s) with
  | Return id' w' =>
      exists n,
        Application.while_curr_url env fuel id cur s =
          Done id' (mkServer (app s) w'
                      (log s ++ repeat (regenerating wid) n)) /\
        List.length (calls w') = (List.length (calls (world s)) + n)%nat
  | Raise _ _ => False
  | OutOfFuel => Application.while_curr_url env fuel id cur s = Hangs
  end.
Proof.
  induction fuel as [|fuel IH]; intros id cur s Hs.
  - destruct cur as [d|]; [reflexivity|].
    simpl. exists 0%nat. simpl. rewrite app_nil_r, server_eta.
    split; [reflexivity | lia].
  - destruct cur as [d|].
    + rewrite loop_step, (app_loop_step fuel id d s Hs).
      set (s1 := mkServer (app s)
                   (after_attempt (world s) (candidate env (world s) 0))
                   (log s ++ [regenerating wid])).
      assert (Hs1 : started wid s1) by exact Hs.
      specialize (IH (candidate env (world s) 0)
                     (lookup (candidate env (world s) 0) (database (world s)))
                     s1 Hs1).
      change (world s1)
        with (after_attempt (world s) (candidate env (world s) 0)) in IH.
      destruct (while_curr_url env fuel _ _ _) as [id' w'|e w'|];
        [|exact IH|exact IH].
      destruct IH as (n & Hrun & Hlen). exists (S n). split.
      * rewrite Hrun. subst s1. cbn [app log]. rewrite <- app_assoc.
        reflexivity.
      * rewrite Hlen. unfold after_attempt. simpl.
        rewrite length_app. simpl. lia.
    + rewrite loop_exit, app_loop_exit. exists 0%nat. simpl.
      rewrite app_nil_r, server_eta. split; [reflexivity | lia].
Qed.

Lemma app_url_shorten_refines (fuel : nat) (request : ShortenRequest)
      (info : Request) (s : Server) :
  started wid s ->
  match url_shorten env fuel request info (world s) with
  | Return r w' =>
      exists n,
        Application.url_shorten env fuel request info s =
          Done r (mkServer (app s) w'
                    (log s ++ repeat (regenerating wid) n ++ [inserted wid])) /\
        List.length (calls w') = (List.length (calls (world s)) + n + 2)%nat
  | Raise e w' =>
      Application.url_shorten env fuel request info s =
        Fails (Raised e) (mkServer (app s) w' (log s ++ [invalid_url wid]))
  | OutOfFuel => Application.url_shorten env fuel request info s = Hangs
  end.
Proof.
  intros Hs. destruct (validators_url env (url request)) eqn:Hv.
  - rewrite url_shorten_valid by exact Hv.
    remember (Application.url_shorten env fuel request info s) as out
      eqn:Happ.
    unfold Application.url_shorten in Happ. rewrite Hv in Happ.
    cbn [negb] in Happ.
    unfold Application.bind at 1 in Happ. rewrite lift_generate_id in Happ.
    unfold Application.bind at 1 in Happ.
    rewrite started_find_one in Happ by exact Hs.
    unfold Application.bind at 1 in Happ.
    set (s1 := mkServer (app s)
                 (after_attempt (world s) (candidate env (world s) 0))
                 (log s)).
    assert (Hs1 : started wid s1) by exact Hs.
    lazymatch type of Happ with
    | _ = match ?t with Done _ _ => _ | Fails _ _ => _ | Hangs => _ end =>
        change t
          with (Application.while_curr_url env fuel
                  (candidate env (world s) 0)
                  (lookup (candidate env (world s) 0) (database (world s)))
                  s1) in Happ
    end.
    pose proof (app_loop_refines fuel (candidate env (world s) 0)
                  (lookup (candidate env (world s) 0) (database (world s)))
                  s1 Hs1) as Hloop.
    change (world s1)
      with (after_attempt (world s) (candidate env (world s) 0)) in Hloop.
    destruct (while_curr_url env fuel _ _ _) as [id w1|e w1|] eqn:Hcore.
    + destruct Hloop as (n & Hrun & Hlen). exists n.
      rewrite Hrun in Happ. subst out.
      apply loop_return in Hcore as (_ & _ & _ & Ht);
        [|reflexivity | apply candidate_well_formed].
      simpl in Ht. subst s1. cbn [app log]. split.
      * clear Hrun Hlen Hs1. destruct Hs as [Hw Hdb].
        destruct s as [[c odb owid] w l].
        cbn [app world log worker_id app_database] in *. subst owid.
        destruct odb as [db|]; [|congruence].
        cbv [Application.bind lift now collection_insert_one get_database
             get_worker_id insert_one logging_info Application.ret add_log
             set_world app world log worker_id app_database].
        unfold short_link, new_document, inserted, advance_ticks, log_call,
          set_database.
        cbn [database draws ticks calls]. rewrite Ht, <- app_assoc.
        replace (ticks w + 1)%nat with (S (ticks w)) by lia.
        reflexivity.
      * simpl. rewrite length_app, Hlen. unfold after_attempt. simpl.
        rewrite length_app. simpl. lia.
    + destruct Hloop.
    + rewrite Hloop in Happ. exact Happ.
  - rewrite url_shorten_invalid by exact Hv.
    unfold Application.url_shorten. rewrite Hv. cbn [negb].
    unfold Application.bind. rewrite (started_worker_id s Hs).
    reflexivity.
Qed.

Lemma app_url_resolve_refines (k : string) (s : Server) :
  started wid s ->
  Application.url_resolve k s =
  match url_resolve k (world s) with
  | Return r w' =>
      Done r (mkServer (app s) w' (log s ++ [handled_by wid]))
  | Raise e w' =>
      Fails (Raised e)
            (mkServer (app s) w'
               (log s ++ [handled_by wid; was_not_found k wid]))
  | OutOfFuel => Hangs
  end.
Proof.
  intros Hs. unfold Application.url_resolve.
  unfold Application.bind at 1. rewrite (started_worker_id s Hs).
  unfold Application.bind at 1. unfold logging_info at 1.
  set (s1 := add_log (mkLogRecord INFO ("Request handled by " ++ wid)) s).
  assert (Hs1 : started wid s1) by exact Hs.
  unfold Application.bind at 1. rewrite started_find_one by exact Hs1.
  subst s1. cbn [world add_log].
  destruct (lookup k (database (world s))) as [d|] eqn:Hl.
  - rewrite (url_resolve_found k (world s) d Hl). reflexivity.
  - rewrite (url_resolve_absent k (world s) Hl).
    unfold Application.bind. rewrite started_worker_id by exact Hs.
    unfold logging_error, Application.fail, add_log, set_world.
    cbn [app world log]. rewrite <- app_assoc. reflexivity.
Qed.

Lemma app_index_started (s : Server) :
  started wid s ->
  index s = Done "Your URL Shortener is running!"
                 (add_log (handled_by wid) s).
Proof.
  intros Hs. unfold index, Application.bind.
  now rewrite (started_worker_id s Hs).
Qed.

(** One route on a started server: the reply is that of the handlers
    above on the world of the server, a text for the index; the
    attributes of [app] stay, and no reply is a failure other than an
    HTTP exception. *)
Lemma dispatch_refines (fuel : nat) (rt : Route) (s : Server) :
  started wid s ->
  match call_of rt with
  | Some c =>
      match respond env fuel c (world s) with
      | Some (o, w') =>
          exists reply s',
            dispatch env fuel rt s = Some (reply, s') /\
            outcome_of reply = Some o /\ world s' = w' /\ app s' = app s /\
            (forall f, reply = Failure f ->
                       exists code detail,
                         f = Raised (HTTPException code detail))
      | None => dispatch env fuel rt s = None
      end
  | None =>
      exists t s',
        dispatch env fuel rt s = Some (Text t, s') /\
        world s' = world s /\ app s' = app s
  end.
Proof.
  intros Hs. destruct rt as [request info|k|]; simpl call_of.
  - unfold respond, dispatch. simpl handle.
    pose proof (app_url_shorten_refines fuel request info s Hs) as H.
    destruct (url_shorten env fuel request info (world s))
      as [r w'|e w'|] eqn:Hcore.
    + destruct H as (n & -> & _). do 2 eexists.
      split; [reflexivity|]. repeat split. intros f Hf. discriminate.
    + rewrite H. apply url_shorten_raise in Hcore as (_ & -> & _).
      do 2 eexists. split; [reflexivity|]. repeat split.
      intros f Hf. injection Hf as <-. eauto.
    + now rewrite H.
  - unfold respond, dispatch. simpl handle.
    rewrite (app_url_resolve_refines k s Hs).
    destruct (lookup k (database (world s))) as [d|] eqn:Hl.
    + rewrite (url_resolve_found k (world s) d Hl). do 2 eexists.
      split; [reflexivity|]. repeat split. intros f Hf. discriminate.
    + rewrite (url_resolve_absent k (world s) Hl). do 2 eexists.
      split; [reflexivity|]. repeat split.
      intros f Hf. injection Hf as <-. eauto.
  - unfold dispatch. rewrite (app_index_started s Hs). do 2 eexists.
    split; [reflexivity|]. split; reflexivity.
Qed.

Lemma run_refines (fuel : nat) (rts : list Route) : forall s,
  started wid s ->
  match serve env fuel (calls_of rts) (world s) with
  | Some (os, w') =>
      exists replies s',
        run env fuel rts s = Some (replies, s') /\
        outcomes_of replies = os /\ world s' = w' /\ app s' = app s /\
        Forall (fun reply =>
                  forall f, reply = Failure f ->
                            exists code detail,
                              f = Raised (HTTPException code detail))
               replies
  | None => run env fuel rts s = None
  end.
Proof.
  induction rts as [|rt rts IH]; intros s Hs.
  - simpl. exists [], s. auto.
  - pose proof (dispatch_refines fuel rt s Hs) as Hd.
    cbn [calls_of run]. destruct (call_of rt) as [c|] eqn:Hc.
    + cbn [serve].
      destruct (respond env fuel c (world s)) as [[o w1]|];
        [|now rewrite Hd].
      destruct Hd as (reply & s1 & -> & Ho & <- & Ha & Hf).
      assert (Hs1 : started wid s1) by (unfold started; now rewrite Ha).
      specialize (IH s1 Hs1).
      destruct (serve env fuel (calls_of rts) (world s1)) as [[os w2]|];
        [|now rewrite IH].
      destruct IH as (replies & s2 & -> & <- & <- & Ha2 & Hall).
      exists (reply :: replies), s2. split; [reflexivity|].
      cbn [outcomes_of]. rewrite Ho.
      repeat split; [congruence | now constructor].
    + destruct Hd as (t & s1 & -> & Hw & Ha).
      assert (Hs1 : started wid s1) by (unfold started; now rewrite Ha).
      specialize (IH s1 Hs1). rewrite Hw in IH.
      destruct (serve env fuel (calls_of rts) (world s)) as [[os w2]|];
        [|now rewrite IH].
      destruct IH as (replies & s2 & -> & <- & <- & Ha2 & Hall).
      exists (Text t :: replies), s2. split; [reflexivity|].
      repeat split; [congruence|]. constructor; [|exact Hall].
      intros f Hf. discriminate.
Qed.

End Application_facts.

Section Log_facts.

Import Application(Level(..), LogRecord(..), App(..), Server(..), Fault(..),
                   Out(..), Route(..), Reply(..), level, message,
                   app_database, worker_id, app, world, log, add_log,
                   dispatch, run, started, regenerating, inserted,
                   invalid_url, handled_by, was_not_found, names_worker).

Variable env : Env.
Variable wid : string.

Lemma names_worker_repeat (n : nat) :
  Forall (names_worker wid) (repeat (regenerating wid) n).
Proof.
  apply Forall_forall. intros r Hr. apply repeat_spec in Hr. subst r.
  now exists "ID was duplicated: REGENERATING - WORKER: ".
Qed.

(** One route on a started server: the log grows at its end, by at least
    one record, and every new record ends with the worker's id. *)
Lemma dispatch_logs (fuel : nat) (rt : Route) (s : Server) (reply : Reply)
      (s' : Server) :
  started wid s ->
  dispatch env fuel rt s = Some (reply, s') ->
  started wid s' /\
  exists added,
    log s' = (log s ++ added)%list /\ added <> [] /\
    Forall (names_worker wid) added.
Proof.
  intros Hs. destruct rt as [request info|k|]; unfold dispatch.
  - pose proof (app_url_shorten_refines env wid fuel request info s Hs) as H.
    destruct (url_shorten env fuel request info (world s)) as [r w'|e w'|].
    + destruct H as (n & -> & _). intros E. injection E as <- <-.
      split; [exact Hs|].
      exists (repeat (regenerating wid) n ++ [inserted wid])%list.
      split; [reflexivity|]. split.
      * destruct (repeat (regenerating wid) n); discriminate.
      * apply Forall_app. split; [apply names_worker_repeat|].
        constructor; [|constructor].
        now exists "Inserted new document into database - WORKER: ".
    + rewrite H. intros E. injection E as <- <-. split; [exact Hs|].
      exists [invalid_url wid]. split; [reflexivity|].
      split; [discriminate|]. constructor; [|constructor].
      now exists "Invalid URL - WORKER: ".
    + rewrite H. discriminate.
  - rewrite (app_url_resolve_refines wid k s Hs).
    assert (Hh : names_worker wid (handled_by wid))
      by now exists "Request handled by ".
    destruct (url_resolve k (world s)) as [r w'|e w'|]; intros E;
      try discriminate; injection E as <- <-; (split; [exact Hs|]).
    + exists [handled_by wid]. split; [reflexivity|].
      split; [discriminate|]. now constructor.
    + exists [handled_by wid; was_not_found k wid]. split; [reflexivity|].
      split; [discriminate|]. constructor; [exact Hh|].
      constructor; [|constructor].
      exists (k ++ " was not found in the database - WORKER: ").
      unfold was_not_found. cbn [message]. now rewrite append_assoc.
  - rewrite (app_index_started wid s Hs). intros E. injection E as <- <-.
    split; [exact Hs|]. exists [handled_by wid]. split; [reflexivity|].
    split; [discriminate|]. constructor; [|constructor].
    now exists "Request handled by ".
Qed.

Lemma run_logs (fuel : nat) (rts : list Route) : forall s replies s',
  started wid s ->
  run env fuel rts s = Some (replies, s') ->
  exists added,
    log s' = (log s ++ added)%list /\
    (List.length rts <= List.length added)%nat /\
    Forall (names_worker wid) added.
Proof.
  induction rts as [|rt rts IH]; intros s replies s' Hs Hrun.
  - simpl in Hrun. injection Hrun as <- <-. exists []. simpl.
    rewrite app_nil_r. auto.
  - cbn [run] in Hrun.
    destruct (dispatch env fuel rt s) as [[reply s1]|] eqn:Hd;
      [|discriminate].
    destruct (run env fuel rts s1) as [[replies1 s2]|] eqn:Hrest;
      [|discriminate].
    injection Hrun as <- <-.
    destruct (dispatch_logs fuel rt s reply s1 Hs Hd)
      as (Hs1 & added1 & Hl1 & Hne & Hall1).
    destruct (IH s1 replies1 s2 Hs1 Hrest) as (added2 & Hl2 & Hlen & Hall2).
    exists (added1 ++ added2)%list. split; [|split].
    + now rewrite Hl2, Hl1, <- app_assoc.
    + rewrite length_app. simpl. destruct added1; [congruence | simpl; lia].
    + apply Forall_app. split; assumption.
Qed.

End Log_facts.

(** * Properties of the service *)

(** C1. Round trip: when [url_shorten] succeeds for a request with URL [u],
    the response carries a code [c] behind the host and "/r/", the URL
    passed validation, and [url_resolve c] in the world that
    [url_shorten] leaves redirects to exactly [u]. *)
Theorem shorten_then_resolve_round_trip
        (env : Env) (fuel : nat) (request : ShortenRequest) (info : Request)
        (w : World) (r : Response) (w' : World) :
  url_shorten env fuel request info w = Return r w' ->
  exists c,
    validators_url env (url request) = true /\
    returned_code (Shorten request info) (Responded r) = Some c /\
    url_resolve c w' =
      Return (RedirectResponse (url request)) (log_call (FindOne c) w').
Proof.
  intros Hrun.
  apply url_shorten_return in Hrun as (id & Hv & _ & Hfresh & -> & Hdb & _).
  exists id. split; [exact Hv|]. split; [apply short_link_code|].
  rewrite (url_resolve_found id w' (new_document env request id w));
    [reflexivity|].
  rewrite Hdb, lookup_app, Hfresh. unfold lookup. simpl.
  now rewrite String.eqb_refl.
Qed.

Lemma shorten_then_resolve_round_trip_witness :
  url_shorten env_A_then_B 0 req_new info_local empty_world =
    Return (JSONResponse "localhost:8000/r/AAAAAAA" 201) world_after_A /\
  exists c,
    validators_url env_A_then_B (url req_new) = true /\
    returned_code (Shorten req_new info_local)
      (Responded (JSONResponse "localhost:8000/r/AAAAAAA" 201)) = Some c /\
    url_resolve c world_after_A =
      Return (RedirectResponse (url req_new))
             (log_call (FindOne c) world_after_A).
Proof.
  split; [reflexivity|].
  apply (shorten_then_resolve_round_trip
           env_A_then_B 0 req_new info_local empty_world).
  reflexivity.
Defined.

(** C2. Uniqueness: from a collection without two documents under one
    code (the empty one, for a start), however many calls the service
    handles one after the other, the codes that the successful
    [url_shorten] calls hand out are pairwise distinct, they are all in
    the collection, and the collection still has at most one document per
    code. *)
Theorem sequential_codes_distinct
        (env : Env) (fuel : nat) (cs : list Call) (w : World)
        (os : list Outcome) (w' : World) :
  NoDup (codes (database w)) ->
  serve env fuel cs w = Some (os, w') ->
  NoDup (returned_codes cs os) /\
  NoDup (codes (database w')) /\
  (forall k, In k (returned_codes cs os) -> In k (codes (database w'))).
Proof.
  intros Hnd Hrun.
  destruct (serve_codes env fuel cs w os w' Hrun Hnd) as (H1 & H2 & _ & H4).
  repeat split; try assumption. intros k Hk. now apply H4.
Qed.

Lemma sequential_codes_distinct_witness :
  NoDup (codes (database empty_world)) /\
  serve env_A_then_B 0 two_shortens empty_world =
    Some ([Responded (JSONResponse "localhost:8000/r/AAAAAAA" 201);
           Responded (JSONResponse "None/r/BBBBBBB" 201)], world_after_A_B) /\
  NoDup ["AAAAAAA"; "BBBBBBB"] /\
  NoDup (codes (database world_after_A_B)).
Proof.
  assert (Hnd : NoDup (codes (database empty_world))) by constructor.
  assert (Hrun : serve env_A_then_B 0 two_shortens empty_world =
    Some ([Responded (JSONResponse "localhost:8000/r/AAAAAAA" 201);
           Responded (JSONResponse "None/r/BBBBBBB" 201)], world_after_A_B))
    by reflexivity.
  destruct (sequential_codes_distinct _ _ _ _ _ _ Hnd Hrun) as (H1 & H2 & _).
  repeat split; assumption.
Defined.

(** C3, as the code has it.  The retry loop of [url_shorten] has no bound
    and no failure of its own.  For a valid URL: (a) when every code the
    generator makes is in the collection, the handler is still in its loop
    after any number of iterations; (b) when the first [k] codes collide
    and the next one is free, for any [k], the handler is still in its loop
    with fewer than [k] iterations and returns that code with [k] or more;
    (c) the handler raises nothing; (d) once the handler returns, more
    iterations change nothing. *)
Theorem retry_loop_has_no_bound
        (env : Env) (request : ShortenRequest) (info : Request) (w : World) :
  validators_url env (url request) = true ->
  ((forall k, lookup (candidate env w k) (database w) <> None) ->
   forall fuel, url_shorten env fuel request info w = OutOfFuel) /\
  (forall k,
      (forall j, (j < k)%nat ->
                 lookup (candidate env w j) (database w) <> None) ->
      lookup (candidate env w k) (database w) = None ->
      forall fuel,
        ((fuel < k)%nat -> url_shorten env fuel request info w = OutOfFuel) /\
        ((k <= fuel)%nat ->
         exists w',
           url_shorten env fuel request info w =
           Return (JSONResponse
                     (format_value (headers_get info "host") ++ "/r/"
                        ++ candidate env w k) 201) w')) /\
  (forall fuel e w', url_shorten env fuel request info w <> Raise e w') /\
  (forall fuel extra r w',
      url_shorten env fuel request info w = Return r w' ->
      url_shorten env (fuel + extra) request info w = Return r w').
Proof.
  intros Hv. split; [|split; [|split]].
  - intros Hall fuel. now apply url_shorten_diverges.
  - intros k Hbefore Hfresh fuel. split; intros Hfuel.
    + apply url_shorten_out_of_fuel; [exact Hv|].
      intros j Hj. apply Hbefore. lia.
    + now apply url_shorten_returns_after.
  - intros fuel e w' Hrun. apply url_shorten_raise in Hrun as (Hv' & _).
    congruence.
  - intros fuel extra r w'. apply url_shorten_more_fuel.
Qed.

Lemma retry_loop_has_no_bound_witness :
  validators_url env_A_then_B (url req_new) = true /\
  url_shorten env_A_then_B 0 req_new info_local seeded_world = OutOfFuel /\
  exists w',
    url_shorten env_A_then_B 1 req_new info_local seeded_world =
    Return (JSONResponse "localhost:8000/r/BBBBBBB" 201) w'.
Proof.
  assert (Hv : validators_url env_A_then_B (url req_new) = true)
    by reflexivity.
  destruct (retry_loop_has_no_bound env_A_then_B req_new info_local
              seeded_world Hv) as (_ & Hafter & _).
  assert (Hbefore : forall j, (j < 1)%nat ->
            lookup (candidate env_A_then_B seeded_world j)
                   (database seeded_world) <> None).
  { intros j Hj. assert (j = 0)%nat as -> by lia. discriminate. }
  destruct (Hafter 1%nat Hbefore eq_refl 0%nat) as (Hlow & _).
  destruct (Hafter 1%nat Hbefore eq_refl 1%nat) as (_ & Hhigh).
  split; [exact Hv|]. split; [apply Hlow; lia | apply Hhigh; lia].
Defined.

(** C3 as stated fails: with a collection that holds "AAAAAAA" and a
    generator that makes "AAAAAAA" every time, [url_shorten] fails with
    nothing; whatever number of iterations it is given, it is still in its
    loop. *)
Lemma always_colliding_generator_never_fails :
  (forall k, candidate env_always_A seeded_world k = "AAAAAAA") /\
  lookup "AAAAAAA" (database seeded_world) = Some doc_A /\
  forall fuel,
    url_shorten env_always_A fuel req_new info_local seeded_world = OutOfFuel.
Proof.
  assert (Hc : forall k, candidate env_always_A seeded_world k = "AAAAAAA").
  { intros k. rewrite candidate_drawn. reflexivity. }
  split; [exact Hc|]. split; [reflexivity|].
  intros fuel. apply url_shorten_diverges; [reflexivity|].
  intros k. rewrite Hc. discriminate.
Qed.

(** C4. Collision handling: the collection holds document [d] under
    "AAAAAAA" and nothing under "BBBBBBB", the generator makes "AAAAAAA"
    and then "BBBBBBB".  With one iteration or more, [url_shorten] returns
    the link of "BBBBBBB", the collection is the old one followed by the
    new document under "BBBBBBB", and "AAAAAAA" still leads to [d]. *)
Theorem collision_retry_keeps_old_mapping
        (env : Env) (fuel : nat) (request : ShortenRequest) (info : Request)
        (w : World) (d : Document) :
  validators_url env (url request) = true ->
  lookup "AAAAAAA" (database w) = Some d ->
  lookup "BBBBBBB" (database w) = None ->
  candidate env w 0 = "AAAAAAA" ->
  candidate env w 1 = "BBBBBBB" ->
  exists w',
    url_shorten env (S fuel) request info w =
      Return (JSONResponse
                (format_value (headers_get info "host") ++ "/r/BBBBBBB") 201)
             w' /\
    database w' =
      (database w ++
       [{| original_url := url request;
           short_url := "BBBBBBB";
           created_at := clock env (ticks w);
           updated_at := clock env (S (ticks w)) |}])%list /\
    lookup "AAAAAAA" (database w') = Some d /\
    url_resolve "AAAAAAA" w' =
      Return (RedirectResponse (original_url d))
             (log_call (FindOne "AAAAAAA") w') /\
    url_resolve "BBBBBBB" w' =
      Return (RedirectResponse (url request))
             (log_call (FindOne "BBBBBBB") w').
Proof.
  intros Hv HA HB H0 H1.
  destruct (url_shorten_returns_after env 1 (S fuel) request info w Hv)
    as [w' Hrun].
  - intros j Hj. assert (j = 0)%nat as -> by lia. rewrite H0, HA. discriminate.
  - now rewrite H1.
  - lia.
  - exists w'. rewrite H1 in Hrun. split; [exact Hrun|].
    apply url_shorten_return in Hrun as (id & _ & _ & _ & Hr & Hdb & _).
    injection Hr as Hr. apply (short_link_inj info) in Hr. subst id.
    assert (HA' : lookup "AAAAAAA" (database w') = Some d)
      by now rewrite Hdb, lookup_app, HA.
    assert (HB' : lookup "BBBBBBB" (database w') =
                  Some (new_document env request "BBBBBBB" w))
      by now rewrite Hdb, lookup_app, HB.
    split; [exact Hdb|]. split; [exact HA'|]. split.
    + now apply url_resolve_found.
    + now rewrite (url_resolve_found _ _ _ HB').
Qed.

Lemma collision_retry_keeps_old_mapping_witness :
  validators_url env_A_then_B (url req_new) = true /\
  lookup "AAAAAAA" (database seeded_world) = Some doc_A /\
  lookup "BBBBBBB" (database seeded_world) = None /\
  candidate env_A_then_B seeded_world 0 = "AAAAAAA" /\
  candidate env_A_then_B seeded_world 1 = "BBBBBBB" /\
  exists w',
    url_shorten env_A_then_B 1 req_new info_local seeded_world =
      Return (JSONResponse "localhost:8000/r/BBBBBBB" 201) w' /\
    database w' =
      [doc_A; mkDocument "https://new.example/" "BBBBBBB" 1000 1001] /\
    lookup "AAAAAAA" (database w') = Some doc_A.
Proof.
  repeat (split; [reflexivity|]).
  destruct (collision_retry_keeps_old_mapping
              env_A_then_B 0 req_new info_local seeded_world doc_A
              eq_refl eq_refl eq_refl eq_refl eq_refl)
    as (w' & Hrun & Hdb & HA & _).
  exists w'. repeat split; assumption.
Defined.

(** C5. The generator: [generate_id length] always returns, consumes
    [length] random values, and its string has [length] characters, 7 by
    default, all of them upper-case letters, lower-case letters or digits,
    drawn from the 62 characters of [base62], which are just these.  So
    the code that a
    successful [url_shorten] stores and puts in its response has 7
    characters of the alphabet. *)
Theorem generated_code_well_formed (env : Env) :
  (forall length w,
      exists code,
        generate_id env length w = Return code (advance_draws length w) /\
        String.length code = length /\
        all_chars is_alphabet_char code = true) /\
  (default_length = 7 /\ String.length base62 = 62)%nat /\
  (forall c, is_alphabet_char c = occurs c base62) /\
  (forall fuel request info w r w',
      url_shorten env fuel request info w = Return r w' ->
      exists code,
        r = JSONResponse
              (format_value (headers_get info "host") ++ "/r/" ++ code) 201 /\
        String.length code = 7%nat /\
        all_chars is_alphabet_char code = true /\
        In code (codes (database w'))).
Proof.
  split; [|split; [split; reflexivity|split; [apply base62_is_the_alphabet|]]].
  - intros length w. exists (drawn env (draws w) length).
    split; [apply generate_id_drawn|].
    split; [apply drawn_length | apply drawn_alphabet].
  - intros fuel request info w r w' Hrun.
    apply url_shorten_return in Hrun
      as (id & _ & [Hlen Hal] & _ & -> & Hdb & _).
    exists id. repeat split; try assumption.
    rewrite Hdb, codes_app, in_app_iff. simpl. auto.
Qed.

Lemma generated_code_well_formed_witness :
  url_shorten env_A_then_B 0 req_new info_local empty_world =
    Return (JSONResponse "localhost:8000/r/AAAAAAA" 201) world_after_A /\
  exists code,
    JSONResponse "localhost:8000/r/AAAAAAA" 201 =
    JSONResponse
      (format_value (headers_get info_local "host") ++ "/r/" ++ code) 201 /\
    String.length code = 7%nat /\
    all_chars is_alphabet_char code = true /\
    In code (codes (database world_after_A)).
Proof.
  split; [reflexivity|].
  apply (proj2 (proj2 (proj2 (generated_code_well_formed env_A_then_B)))
           0%nat req_new info_local empty_world).
  reflexivity.
Defined.

(** C6. Not found: for every code, when no document of the collection is
    under it, [url_resolve] raises the HTTP exception of status 404, which
    the framework answers as a response, and nothing else; when a document
    is under it, [url_resolve] returns the redirect to the original URL of
    the first such document, which is the only one when no two documents
    share a code. *)
Theorem resolve_not_found_or_redirect (k : string) (w : World) :
  ((forall d, In d (database w) -> short_url d <> k) ->
   url_resolve k w =
     Raise (HTTPException 404 (k ++ " not found")) (log_call (FindOne k) w)) /\
  ((exists d, In d (database w) /\ short_url d = k) ->
   exists d, In d (database w) /\ short_url d = k /\
     url_resolve k w =
       Return (RedirectResponse (original_url d)) (log_call (FindOne k) w)) /\
  (NoDup (codes (database w)) ->
   forall d, In d (database w) -> short_url d = k ->
     url_resolve k w =
       Return (RedirectResponse (original_url d)) (log_call (FindOne k) w)).
Proof.
  repeat split.
  - intros Habsent. apply url_resolve_absent. apply lookup_none_iff.
    unfold codes. rewrite in_map_iff. intros (d & Hk & Hin).
    now apply (Habsent d).
  - intros (d & Hin & Hk).
    destruct (lookup k (database w)) as [d'|] eqn:Hl.
    + destruct (lookup_some _ _ _ Hl) as [Hin' Hk'].
      exists d'. repeat split; try assumption. now apply url_resolve_found.
    + apply lookup_none_iff in Hl. exfalso. apply Hl.
      unfold codes. rewrite in_map_iff. eauto.
  - intros Hnd d Hin Hk. apply url_resolve_found. now apply lookup_unique.
Qed.

Lemma resolve_not_found_or_redirect_witness :
  (forall d, In d (database seeded_world) -> short_url d <> "doesNotExist") /\
  url_resolve "doesNotExist" seeded_world =
    Raise (HTTPException 404 "doesNotExist not found")
          (log_call (FindOne "doesNotExist") seeded_world) /\
  NoDup (codes (database seeded_world)) /\
  In doc_A (database seeded_world) /\
  url_resolve "AAAAAAA" seeded_world =
    Return (RedirectResponse "http://old.example/page")
           (log_call (FindOne "AAAAAAA") seeded_world).
Proof.
  assert (Habsent : forall d, In d (database seeded_world) ->
                              short_url d <> "doesNotExist").
  { intros d [<-|[]]. discriminate. }
  assert (Hnd : NoDup (codes (database seeded_world))).
  { constructor; [intros [] | constructor]. }
  assert (Hin : In doc_A (database seeded_world)) by (left; reflexivity).
  destruct (resolve_not_found_or_redirect "doesNotExist" seeded_world)
    as (H404 & _ & _).
  destruct (resolve_not_found_or_redirect "AAAAAAA" seeded_world)
    as (_ & _ & Hfound).
  split; [exact Habsent|]. split; [exact (H404 Habsent)|].
  split; [exact Hnd|]. split; [exact Hin|].
  exact (Hfound Hnd doc_A Hin eq_refl).
Defined.

(** C7, as the code has it.  [url_shorten] reads the clock once for
    [created_at] and once more for [updated_at].  Whatever calls the
    service handles, the collection afterwards is the one before followed
    by the documents added: no document is changed or removed, and every
    document added carries two successive readings of the clock, the same
    instant when the clock did not move between the two. *)
Theorem timestamps_are_successive_clock_readings
        (env : Env) (fuel : nat) (cs : list Call) (w : World)
        (os : list Outcome) (w' : World) :
  serve env fuel cs w = Some (os, w') ->
  exists added,
    database w' = (database w ++ added)%list /\
    Forall (fun d => exists t, created_at d = clock env t /\
                               updated_at d = clock env (S t)) added /\
    ((forall t, clock env (S t) = clock env t) ->
     Forall (fun d => created_at d = updated_at d) added).
Proof.
  intros Hrun.
  destruct (serve_stamps env fuel cs w os w' Hrun) as (added & Hdb & Hst).
  exists added. split; [exact Hdb|]. split; [exact Hst|].
  intros Hfrozen. apply (Forall_impl _ (P := stamped env)); [|exact Hst].
  intros d (t & Hc & Hu). now rewrite Hc, Hu, Hfrozen.
Qed.

Lemma timestamps_are_successive_clock_readings_witness :
  serve env_A_then_B 0 two_shortens empty_world =
    Some ([Responded (JSONResponse "localhost:8000/r/AAAAAAA" 201);
           Responded (JSONResponse "None/r/BBBBBBB" 201)], world_after_A_B) /\
  exists added,
    database world_after_A_B = (database empty_world ++ added)%list /\
    Forall (fun d => exists t, created_at d = clock env_A_then_B t /\
                               updated_at d = clock env_A_then_B (S t)) added.
Proof.
  split; [reflexivity|].
  destruct (timestamps_are_successive_clock_readings
              env_A_then_B 0 two_shortens empty_world _ world_after_A_B
              eq_refl) as (added & Hdb & Hst & _).
  exists added. split; assumption.
Defined.

(** C7 as stated fails: under a clock that moves at every reading, the
    document that one [url_shorten] stores in the empty collection has
    [created_at] 1000 and [updated_at] 1001. *)
Lemma created_at_differs_from_updated_at :
  serve env_A_then_B 0 [Shorten req_new info_local] empty_world =
    Some ([Responded (JSONResponse "localhost:8000/r/AAAAAAA" 201)],
          world_after_A) /\
  In doc_new_A (database world_after_A) /\
  created_at doc_new_A = 1000%Z /\ updated_at doc_new_A = 1001%Z /\
  created_at doc_new_A <> updated_at doc_new_A.
Proof.
  split; [reflexivity|]. split; [left; reflexivity|].
  split; [reflexivity|]. split; [reflexivity | discriminate].
Qed.

(** C8. Pure read: [url_resolve] always comes back, with the collection,
    the random module and the clock as they were and one [find_one] made.
    Any sequence of [url_resolve] calls leaves the collection as it was,
    and each call is answered from the collection as it was before the
    first: so for a code with a document, every one of [n] calls in a row
    redirects to the same original URL. *)
Theorem resolve_is_pure_read (env : Env) (fuel : nat) (w : World) :
  (forall k,
      match url_resolve k w with
      | Return _ w' | Raise _ w' =>
          database w' = database w /\ draws w' = draws w /\
          ticks w' = ticks w /\ calls w' = (calls w ++ [FindOne k])%list
      | OutOfFuel => False
      end) /\
  (forall ks,
      exists w',
        serve env fuel (map Resolve ks) w =
          Some (map (resolve_outcome (database w)) ks, w') /\
        database w' = database w /\ draws w' = draws w /\
        ticks w' = ticks w) /\
  (forall k d n,
      lookup k (database w) = Some d ->
      exists w',
        serve env fuel (repeat (Resolve k) n) w =
          Some (repeat (Responded (RedirectResponse (original_url d))) n, w') /\
        database w' = database w).
Proof.
  split; [|split].
  - intros k. destruct (lookup k (database w)) as [d|] eqn:Hl.
    + rewrite (url_resolve_found k w d Hl). simpl. auto.
    + rewrite (url_resolve_absent k w Hl). simpl. auto.
  - intros ks.
    destruct (serve_resolves env fuel ks w) as (w' & Hrun & Hdb & Hd & Ht & _).
    exists w'. auto.
  - intros k d n Hl.
    destruct (serve_resolves env fuel (repeat k n) w)
      as (w' & Hrun & Hdb & _).
    exists w'. split; [|exact Hdb].
    rewrite !map_repeat in Hrun. unfold resolve_outcome in Hrun.
    now rewrite Hl in Hrun.
Qed.

Lemma resolve_is_pure_read_witness :
  lookup "AAAAAAA" (database seeded_world) = Some doc_A /\
  exists w',
    serve env_always_A 0 (repeat (Resolve "AAAAAAA") 3) seeded_world =
      Some (repeat (Responded (RedirectResponse "http://old.example/page")) 3,
            w') /\
    database w' = database seeded_world.
Proof.
  split; [reflexivity|].
  apply (proj2 (proj2 (resolve_is_pure_read env_always_A 0 seeded_world))
           "AAAAAAA" doc_A 3%nat).
  reflexivity.
Defined.

(** C9. Invalid URL: when the URL of the request fails validation,
    [url_shorten] raises the HTTP exception of status 400 and leaves the
    world as it found it: no call on the collection, no random value, no
    clock reading.  And a [url_shorten] that raises has done just that. *)
Theorem invalid_url_rejected_before_any_store_call
        (env : Env) (fuel : nat) (request : ShortenRequest) (info : Request)
        (w : World) :
  (validators_url env (url request) = false ->
   url_shorten env fuel request info w =
     Raise (HTTPException 400 (url request ++ " is not a valid url")) w) /\
  (forall e w',
      url_shorten env fuel request info w = Raise e w' ->
      validators_url env (url request) = false /\
      e = HTTPException 400 (url request ++ " is not a valid url") /\
      w' = w).
Proof.
  split.
  - apply url_shorten_invalid.
  - intros e w'. apply url_shorten_raise.
Qed.

Lemma invalid_url_rejected_before_any_store_call_witness :
  validators_url env_A_then_B (url req_bad) = false /\
  url_shorten env_A_then_B 5 req_bad info_local seeded_world =
    Raise (HTTPException 400 "not a url is not a valid url") seeded_world.
Proof.
  split; [reflexivity|].
  apply (proj1 (invalid_url_rejected_before_any_store_call
                  env_A_then_B 5 req_bad info_local seeded_world)).
  reflexivity.
Defined.

(** C10. The response: a successful [url_shorten] answers status 201 with
    a [short_url] that is the value of the Host header as the f-string
    renders it, then "/r/", then the 7-character code; for a request with
    Host header [h] that is [h ++ "/r/" ++ code].  This string is not the
    code; stripping the host and "/r/" from it gives the code, which
    [url_resolve] redirects to the URL of the request; and when the codes
    of the collection are all well formed, [url_resolve] on the unstripped
    string raises 404. *)
Theorem response_is_host_r_code
        (env : Env) (fuel : nat) (request : ShortenRequest) (info : Request)
        (w : World) (r : Response) (w' : World) :
  url_shorten env fuel request info w = Return r w' ->
  exists code body,
    r = JSONResponse body 201 /\
    body = format_value (headers_get info "host") ++ "/r/" ++ code /\
    (forall h, headers_get info "host" = Some h ->
               body = h ++ "/r/" ++ code) /\
    well_formed_code code /\
    body <> code /\
    strip_prefix (format_value (headers_get info "host") ++ "/r/") body
      = Some code /\
    url_resolve code w' =
      Return (RedirectResponse (url request)) (log_call (FindOne code) w') /\
    ((forall d, In d (database w) -> well_formed_code (short_url d)) ->
     url_resolve body w' =
       Raise (HTTPException 404 (body ++ " not found"))
             (log_call (FindOne body) w')).
Proof.
  intros Hrun.
  apply url_shorten_return in Hrun as (id & Hv & Hwf & Hfresh & -> & Hdb & _).
  exists id, (short_link info id).
  assert (Hlen : String.length (short_link info id) <> default_length).
  { unfold short_link. rewrite !append_length. destruct Hwf as [-> _].
    unfold default_length. simpl. lia. }
  split; [reflexivity|]. split; [reflexivity|]. split.
  { intros h Hh. unfold short_link. now rewrite Hh. }
  split; [exact Hwf|]. split.
  { intros E. rewrite E in Hlen. now destruct Hwf. }
  split; [apply short_link_code|]. split.
  - rewrite (url_resolve_found id w' (new_document env request id w));
      [reflexivity|].
    rewrite Hdb, lookup_app, Hfresh. unfold lookup. simpl.
    now rewrite String.eqb_refl.
  - intros Hall. apply url_resolve_absent.
    destruct (lookup (short_link info id) (database w')) as [d|] eqn:Hl;
      [|reflexivity].
    exfalso. apply lookup_some in Hl as [Hin Hk].
    rewrite Hdb, in_app_iff in Hin. apply Hlen. rewrite <- Hk.
    destruct Hin as [Hin|[<-|[]]].
    + now apply Hall.
    + apply Hwf.
Qed.

Lemma response_is_host_r_code_witness :
  url_shorten env_A_then_B 0 req_new info_local empty_world =
    Return (JSONResponse "localhost:8000/r/AAAAAAA" 201) world_after_A /\
  exists code body,
    JSONResponse "localhost:8000/r/AAAAAAA" 201 = JSONResponse body 201 /\
    body = "localhost:8000" ++ "/r/" ++ code /\
    well_formed_code code /\
    body <> code.
Proof.
  split; [reflexivity|].
  destruct (response_is_host_r_code
              env_A_then_B 0 req_new info_local empty_world _ world_after_A
              eq_refl)
    as (code & body & Hr & _ & Hh & Hwf & Hne & _).
  exists code, body. repeat split; try assumption; try apply Hwf.
  now apply Hh.
Defined.

(** * Further properties of the handlers *)

(** X1. A code that redirects keeps redirecting to the same URL: whatever
    calls the service handles in between, [url_resolve] answers the code
    as it did before.  No call overwrites or removes a mapping. *)
Theorem redirect_survives_later_calls
        (env : Env) (fuel : nat) (k : string) (w : World) (r : Response)
        (w0 : World) (cs : list Call) (os : list Outcome) (w' : World) :
  url_resolve k w = Return r w0 ->
  serve env fuel cs w = Some (os, w') ->
  url_resolve k w' = Return r (log_call (FindOne k) w').
Proof.
  intros Hres Hrun.
  apply url_resolve_return in Hres as (d & Hl & ->).
  destruct (serve_stamps env fuel cs w os w' Hrun) as (added & Hdb & _).
  apply url_resolve_found. now rewrite Hdb, lookup_app, Hl.
Qed.

Lemma redirect_survives_later_calls_witness :
  url_resolve "AAAAAAA" seeded_world =
    Return (RedirectResponse "http://old.example/page")
           (log_call (FindOne "AAAAAAA") seeded_world) /\
  serve env_A_then_B 1 [Shorten req_new info_local; Resolve "BBBBBBB"]
        seeded_world =
    Some ([Responded (JSONResponse "localhost:8000/r/BBBBBBB" 201);
           Responded (RedirectResponse "https://new.example/")],
          world_after_retry) /\
  url_resolve "AAAAAAA" world_after_retry =
    Return (RedirectResponse "http://old.example/page")
           (log_call (FindOne "AAAAAAA") world_after_retry).
Proof.
  split; [reflexivity|]. split; [reflexivity|].
  apply (redirect_survives_later_calls
           env_A_then_B 1 "AAAAAAA" seeded_world _
           (log_call (FindOne "AAAAAAA") seeded_world)
           [Shorten req_new info_local; Resolve "BBBBBBB"]
           [Responded (JSONResponse "localhost:8000/r/BBBBBBB" 201);
            Responded (RedirectResponse "https://new.example/")]
           world_after_retry);
    reflexivity.
Defined.

(** X2. What a successful [url_shorten] costs.  It met some number [k] of
    collisions, at most the iterations it was allowed; the code it returns
    is the first one the generator made that was not in the collection;
    it drew 7 random values per code, read the clock twice, and called the
    collection [k + 1] times with [find_one], once per code in the order
    generated, and then once with [insert_one]. *)
Theorem shorten_effects_accounted
        (env : Env) (fuel : nat) (request : ShortenRequest) (info : Request)
        (w : World) (r : Response) (w' : World) :
  url_shorten env fuel request info w = Return r w' ->
  exists k,
    (k <= fuel)%nat /\
    (forall j, (j < k)%nat ->
               lookup (candidate env w j) (database w) <> None) /\
    lookup (candidate env w k) (database w) = None /\
    r = JSONResponse
          (format_value (headers_get info "host") ++ "/r/"
             ++ candidate env w k) 201 /\
    draws w' = (draws w + 7 * (k + 1))%nat /\
    ticks w' = (ticks w + 2)%nat /\
    calls w' =
      (calls w
       ++ map (fun j => FindOne (candidate env w j)) (seq 0 (k + 1))
       ++ [InsertOne {| original_url := url request;
                        short_url := candidate env w k;
                        created_at := clock env (ticks w);
                        updated_at := clock env (S (ticks w)) |}])%list.
Proof.
  intros Hrun.
  apply url_shorten_return_attempts in Hrun
    as (k & Hk & Hbefore & Hfresh & -> & ->).
  exists k. destruct (attempts_fields env (S k) w) as (_ & Ht & Hd & Hc).
  replace (k + 1)%nat with (S k) by lia.
  repeat (split; [assumption || reflexivity|]).
  cbn [log_call set_database advance_ticks draws ticks calls].
  rewrite Ht, Hc. unfold attempt_calls.
  split; [lia|]. now rewrite <- app_assoc.
Qed.

Lemma shorten_effects_accounted_witness :
  url_shorten env_A_then_B 1 req_new info_local seeded_world =
    Return (JSONResponse "localhost:8000/r/BBBBBBB" 201)
           world_after_one_retry /\
  exists k,
    (k <= 1)%nat /\
    lookup (candidate env_A_then_B seeded_world k) (database seeded_world)
      = None /\
    draws world_after_one_retry = (draws seeded_world + 7 * (k + 1))%nat /\
    calls world_after_one_retry =
      (calls seeded_world
       ++ map (fun j => FindOne (candidate env_A_then_B seeded_world j))
              (seq 0 (k + 1))
       ++ [InsertOne {| original_url := url req_new;
                        short_url := candidate env_A_then_B seeded_world k;
                        created_at := clock env_A_then_B (ticks seeded_world);
                        updated_at :=
                          clock env_A_then_B (S (ticks seeded_world)) |}])%list.
Proof.
  split; [reflexivity|].
  destruct (shorten_effects_accounted
              env_A_then_B 1 req_new info_local seeded_world _
              world_after_one_retry eq_refl)
    as (k & Hk & _ & Hfresh & _ & Hd & _ & Hc).
  exists k. repeat split; assumption.
Defined.

(** X3. No deduplication of URLs: two [url_shorten] calls in a row for the
    same URL that both succeed hand out two different codes, and both
    codes redirect to that URL afterwards. *)
Theorem same_url_twice_gets_two_codes
        (env : Env) (fuel : nat) (request : ShortenRequest)
        (info1 info2 : Request) (w : World) (r1 r2 : Response) (w' : World) :
  serve env fuel [Shorten request info1; Shorten request info2] w =
    Some ([Responded r1; Responded r2], w') ->
  exists c1 c2,
    returned_code (Shorten request info1) (Responded r1) = Some c1 /\
    returned_code (Shorten request info2) (Responded r2) = Some c2 /\
    c1 <> c2 /\
    url_resolve c1 w' =
      Return (RedirectResponse (url request)) (log_call (FindOne c1) w') /\
    url_resolve c2 w' =
      Return (RedirectResponse (url request)) (log_call (FindOne c2) w').
Proof.
  intros Hrun.
  apply serve_cons in Hrun as (o1 & os1 & w1 & E1 & Hstep1 & Hrun).
  apply serve_cons in Hrun as (o2 & os2 & w2 & E2 & Hstep2 & Hrun).
  simpl in Hrun. injection Hrun as <- <-. subst os1.
  injection E1 as <- <-.
  apply respond_shorten_responded, url_shorten_return in Hstep1
    as (c1 & _ & _ & Hf1 & -> & Hdb1 & _).
  apply respond_shorten_responded, url_shorten_return in Hstep2
    as (c2 & _ & _ & Hf2 & -> & Hdb2 & _).
  exists c1, c2. simpl returned_code. rewrite !short_link_code.
  split; [reflexivity|]. split; [reflexivity|].
  pose proof (lookup_new (database w) (new_document env request c1 w) Hf1)
    as Hl1.
  simpl short_url in Hl1. rewrite <- Hdb1 in Hl1.
  split; [intros ->; congruence|]. split.
  - rewrite (url_resolve_found c1 w2 (new_document env request c1 w));
      [reflexivity|]. now rewrite Hdb2, lookup_app, Hl1.
  - rewrite (url_resolve_found c2 w2 (new_document env request c2 w1));
      [reflexivity|]. rewrite Hdb2.
    now apply (lookup_new (database w1) (new_document env request c2 w1)).
Qed.

Lemma same_url_twice_gets_two_codes_witness :
  serve env_A_then_B 0 two_shortens empty_world =
    Some ([Responded (JSONResponse "localhost:8000/r/AAAAAAA" 201);
           Responded (JSONResponse "None/r/BBBBBBB" 201)], world_after_A_B) /\
  exists c1 c2,
    c1 <> c2 /\
    url_resolve c1 world_after_A_B =
      Return (RedirectResponse (url req_new))
             (log_call (FindOne c1) world_after_A_B) /\
    url_resolve c2 world_after_A_B =
      Return (RedirectResponse (url req_new))
             (log_call (FindOne c2) world_after_A_B).
Proof.
  split; [reflexivity|].
  destruct (same_url_twice_gets_two_codes
              env_A_then_B 0 req_new info_local info_no_host empty_world
              _ _ world_after_A_B eq_refl)
    as (c1 & c2 & _ & _ & Hne & H1 & H2).
  exists c1, c2. repeat split; assumption.
Defined.

(** X4. Only validated URLs are redirect targets: from a collection whose
    original URLs all pass [validators.url] (the empty one, for a start),
    whatever calls the service handles, every redirect that [url_resolve]
    returns afterwards goes to a URL that passes [validators.url]. *)
Theorem redirects_only_to_validated_urls
        (env : Env) (fuel : nat) (cs : list Call) (w : World)
        (os : list Outcome) (w' : World) (k : string) (r : Response)
        (w'' : World) :
  Forall (fun d => validators_url env (original_url d) = true) (database w) ->
  serve env fuel cs w = Some (os, w') ->
  url_resolve k w' = Return r w'' ->
  exists u, r = RedirectResponse u /\ validators_url env u = true.
Proof.
  intros Hold Hrun Hres.
  apply url_resolve_return in Hres as (d & Hl & ->).
  exists (original_url d). split; [reflexivity|].
  destruct (serve_history env fuel cs w os w' Hrun)
    as (added & Hdb & _ & Hnew & _).
  apply lookup_some in Hl as [Hin _]. rewrite Hdb, in_app_iff in Hin.
  rewrite Forall_forall in Hold, Hnew.
  destruct Hin as [Hin|Hin]; [now apply Hold | now apply Hnew].
Qed.

Lemma redirects_only_to_validated_urls_witness :
  Forall (fun d => validators_url env_A_then_B (original_url d) = true)
         (database empty_world) /\
  serve env_A_then_B 0 two_shortens empty_world =
    Some ([Responded (JSONResponse "localhost:8000/r/AAAAAAA" 201);
           Responded (JSONResponse "None/r/BBBBBBB" 201)], world_after_A_B) /\
  url_resolve "BBBBBBB" world_after_A_B =
    Return (RedirectResponse "https://new.example/")
           (log_call (FindOne "BBBBBBB") world_after_A_B) /\
  exists u, RedirectResponse "https://new.example/" = RedirectResponse u /\
            validators_url env_A_then_B u = true.
Proof.
  assert (H0 : Forall (fun d => validators_url env_A_then_B (original_url d)
                                = true) (database empty_world))
    by constructor.
  split; [exact H0|]. split; [reflexivity|]. split; [reflexivity|].
  apply (redirects_only_to_validated_urls
           env_A_then_B 0 two_shortens empty_world
           [Responded (JSONResponse "localhost:8000/r/AAAAAAA" 201);
            Responded (JSONResponse "None/r/BBBBBBB" 201)]
           world_after_A_B "BBBBBBB" _
           (log_call (FindOne "BBBBBBB") world_after_A_B) H0);
    reflexivity.
Defined.

(** X5. From a collection whose codes all have 7 characters of the
    alphabet (the empty one, for a start), whatever calls the service
    handles, a string that is not such a code is answered 404 by
    [url_resolve]: the service never stores a malformed code. *)
Theorem malformed_code_is_never_found
        (env : Env) (fuel : nat) (cs : list Call) (w : World)
        (os : list Outcome) (w' : World) (k : string) :
  Forall (fun d => well_formed_code (short_url d)) (database w) ->
  serve env fuel cs w = Some (os, w') ->
  ~ well_formed_code k ->
  url_resolve k w' =
    Raise (HTTPException 404 (k ++ " not found")) (log_call (FindOne k) w').
Proof.
  intros Hold Hrun Hbad. apply url_resolve_absent.
  destruct (lookup k (database w')) as [d|] eqn:Hl; [|reflexivity].
  exfalso. apply Hbad.
  destruct (serve_history env fuel cs w os w' Hrun)
    as (added & Hdb & _ & Hnew & _).
  apply lookup_some in Hl as [Hin <-]. rewrite Hdb, in_app_iff in Hin.
  rewrite Forall_forall in Hold, Hnew.
  destruct Hin as [Hin|Hin]; [now apply Hold | now apply Hnew].
Qed.

Lemma malformed_code_is_never_found_witness :
  Forall (fun d => well_formed_code (short_url d)) (database empty_world) /\
  serve env_A_then_B 0 two_shortens empty_world =
    Some ([Responded (JSONResponse "localhost:8000/r/AAAAAAA" 201);
           Responded (JSONResponse "None/r/BBBBBBB" 201)], world_after_A_B) /\
  ~ well_formed_code "doesNotExist" /\
  url_resolve "doesNotExist" world_after_A_B =
    Raise (HTTPException 404 "doesNotExist not found")
          (log_call (FindOne "doesNotExist") world_after_A_B).
Proof.
  assert (H0 : Forall (fun d => well_formed_code (short_url d))
                      (database empty_world)) by constructor.
  assert (Hbad : ~ well_formed_code "doesNotExist")
    by (intros [Hlen _]; discriminate Hlen).
  split; [exact H0|]. split; [reflexivity|]. split; [exact Hbad|].
  apply (malformed_code_is_never_found
           env_A_then_B 0 two_shortens empty_world
           [Responded (JSONResponse "localhost:8000/r/AAAAAAA" 201);
            Responded (JSONResponse "None/r/BBBBBBB" 201)]
           world_after_A_B "doesNotExist" H0 eq_refl Hbad).
Defined.

(** X6. Under a clock that never goes back, the collection is in order of
    creation: every document that the service adds has [created_at] no
    later than its [updated_at], and the [updated_at] of a document is no
    later than the [created_at] of every document added after it. *)
Theorem collection_in_creation_order
        (env : Env) (fuel : nat) (cs : list Call) (w : World)
        (os : list Outcome) (w' : World) :
  (forall a b, (a <= b)%nat -> (clock env a <= clock env b)%Z) ->
  serve env fuel cs w = Some (os, w') ->
  exists added,
    database w' = (database w ++ added)%list /\
    Forall (fun d => (created_at d <= updated_at d)%Z) added /\
    StronglySorted (fun a b => (updated_at a <= created_at b)%Z) added.
Proof.
  intros Hmono Hrun.
  destruct (serve_history env fuel cs w os w' Hrun)
    as (added & Hdb & _ & _ & Hst).
  exists added. split; [exact Hdb|].
  exact (stamps_ordered_sorted env Hmono added _ _ Hst).
Qed.

Lemma collection_in_creation_order_witness :
  (forall a b, (a <= b)%nat ->
               (clock env_A_then_B a <= clock env_A_then_B b)%Z) /\
  serve env_A_then_B 0 two_shortens empty_world =
    Some ([Responded (JSONResponse "localhost:8000/r/AAAAAAA" 201);
           Responded (JSONResponse "None/r/BBBBBBB" 201)], world_after_A_B) /\
  exists added,
    database world_after_A_B = (database empty_world ++ added)%list /\
    StronglySorted (fun a b => (updated_at a <= created_at b)%Z) added.
Proof.
  assert (Hmono : forall a b, (a <= b)%nat ->
                    (clock env_A_then_B a <= clock env_A_then_B b)%Z)
    by (intros a b Hab;
        change (1000 + Z.of_nat a <= 1000 + Z.of_nat b)%Z; lia).
  split; [exact Hmono|]. split; [reflexivity|].
  destruct (collection_in_creation_order
              env_A_then_B 0 two_shortens empty_world _ world_after_A_B
              Hmono eq_refl) as (added & Hdb & _ & Hsorted).
  exists added. split; assumption.
Defined.

(** X7. The collection is the record of the 201 responses: whatever calls
    the service handles, the documents it adds are, in order, one per
    successful [url_shorten], each under the code of that response and
    with the URL of that request; failed and [url_resolve] calls add
    none.  From the empty collection, code and URL of the documents are
    just the mappings answered. *)
Theorem collection_records_the_responses
        (env : Env) (fuel : nat) (cs : list Call) (w : World)
        (os : list Outcome) (w' : World) :
  serve env fuel cs w = Some (os, w') ->
  exists added,
    database w' = (database w ++ added)%list /\
    map mapping_of added = returned_mappings cs os /\
    map fst (returned_mappings cs os) = returned_codes cs os /\
    (database w = [] ->
     map mapping_of (database w') = returned_mappings cs os).
Proof.
  intros Hrun.
  destruct (serve_history env fuel cs w os w' Hrun)
    as (added & Hdb & Hmap & _ & _).
  exists added. split; [exact Hdb|]. split; [exact Hmap|]. split.
  - clear. revert os. induction cs as [|c cs IH]; intros [|o os];
      try reflexivity.
    cbn [returned_mappings returned_codes].
    destruct c as [request info|k]; [|apply IH].
    destruct o as [[body status|u]|e]; try apply IH.
    simpl returned_mapping. simpl returned_code.
    destruct (strip_prefix _ body); [simpl; f_equal|]; apply IH.
  - intros Hempty. now rewrite Hdb, Hempty.
Qed.

Lemma collection_records_the_responses_witness :
  serve env_A_then_B 1
        [Shorten req_new info_local; Shorten req_bad info_local;
         Resolve "BBBBBBB"] seeded_world =
    Some ([Responded (JSONResponse "localhost:8000/r/BBBBBBB" 201);
           Failed (HTTPException 400 "not a url is not a valid url");
           Responded (RedirectResponse "https://new.example/")],
          world_after_retry) /\
  exists added,
    database world_after_retry = (database seeded_world ++ added)%list /\
    map mapping_of added = [("BBBBBBB", "https://new.example/")].
Proof.
  split; [reflexivity|].
  destruct (collection_records_the_responses
              env_A_then_B 1
              [Shorten req_new info_local; Shorten req_bad info_local;
               Resolve "BBBBBBB"] seeded_world _ world_after_retry eq_refl)
    as (added & Hdb & Hmap & _).
  exists added. split; assumption.
Defined.

(** X8. The generator loses nothing of what it draws: [generate_id]
    always returns, and two calls, from any worlds and random sources,
    return the same string exactly when the values they draw agree modulo
    62 position by position.  The 62 characters of [base62] are pairwise
    different, so the 62^7 sequences of indices give 62^7 codes. *)
Theorem generate_id_injective_in_draws
        (env1 env2 : Env) (length : nat) (w1 w2 : World) :
  exists c1 c2,
    generate_id env1 length w1 = Return c1 (advance_draws length w1) /\
    generate_id env2 length w2 = Return c2 (advance_draws length w2) /\
    (c1 = c2 <->
     forall i, (i < length)%nat ->
       (entropy env1 (draws w1 + i) mod 62 =
        entropy env2 (draws w2 + i) mod 62)%nat).
Proof.
  exists (drawn env1 (draws w1) length), (drawn env2 (draws w2) length).
  split; [apply generate_id_drawn|]. split; [apply generate_id_drawn|].
  apply drawn_eq_iff.
Qed.

(** X9. The code does not depend on the request: from the same world and
    with the same iterations, a [url_shorten] that succeeds for one
    request succeeds for any other request with a valid URL, whatever its
    headers, with the same code, the same timestamps and the same use of
    the random module and the clock; only the stored URL and the host in
    the response differ. *)
Theorem code_independent_of_request
        (env : Env) (fuel : nat) (request1 request2 : ShortenRequest)
        (info1 info2 : Request) (w : World) (r1 : Response) (w1 : World) :
  validators_url env (url request2) = true ->
  url_shorten env fuel request1 info1 w = Return r1 w1 ->
  exists c d1 w2,
    r1 = JSONResponse
           (format_value (headers_get info1 "host") ++ "/r/" ++ c) 201 /\
    url_shorten env fuel request2 info2 w =
      Return (JSONResponse
                (format_value (headers_get info2 "host") ++ "/r/" ++ c) 201)
             w2 /\
    database w1 = (database w ++ [d1])%list /\
    short_url d1 = c /\ original_url d1 = url request1 /\
    database w2 =
      (database w ++ [{| original_url := url request2;
                         short_url := c;
                         created_at := created_at d1;
                         updated_at := updated_at d1 |}])%list /\
    draws w2 = draws w1 /\ ticks w2 = ticks w1.
Proof.
  intros Hv2 Hrun.
  assert (Hv1 : validators_url env (url request1) = true).
  { apply url_shorten_return in Hrun as (id & Hv & _). exact Hv. }
  rewrite url_shorten_valid in Hrun by exact Hv1.
  rewrite (url_shorten_valid env fuel request2 info2 w Hv2).
  destruct (while_curr_url env fuel _ _ _) as [id wl| |] eqn:Hloop;
    try discriminate.
  injection Hrun as <- <-.
  apply loop_return in Hloop as (_ & _ & Hdb & _);
    [|reflexivity | apply candidate_well_formed].
  exists id, (new_document env request1 id w). eexists.
  split; [reflexivity|]. split; [reflexivity|].
  simpl. rewrite Hdb. simpl. auto 10.
Qed.

Lemma code_independent_of_request_witness :
  validators_url env_A_then_B (url req_other) = true /\
  url_shorten env_A_then_B 1 req_new info_local seeded_world =
    Return (JSONResponse "localhost:8000/r/BBBBBBB" 201)
           world_after_one_retry /\
  exists c w2,
    "localhost:8000/r/BBBBBBB" = "localhost:8000" ++ "/r/" ++ c /\
    url_shorten env_A_then_B 1 req_other info_no_host seeded_world =
      Return (JSONResponse ("None" ++ "/r/" ++ c) 201) w2.
Proof.
  split; [reflexivity|]. split; [reflexivity|].
  destruct (code_independent_of_request
              env_A_then_B 1 req_new req_other info_local info_no_host
              seeded_world _ world_after_one_retry eq_refl eq_refl)
    as (c & d1 & w2 & Hr & Hrun & _).
  exists c, w2. split; [|exact Hrun].
  injection Hr as <-. reflexivity.
Defined.

(** * Properties of the application *)

(** X10. [url_shorten] with its logging, on a started server: it does to
    the world what the handler above does, with the same response, the
    same exception or the same endless loop, and leaves the attributes of
    [app] alone.  On success it has written one REGENERATING record per
    retry, as many as it made [find_one] calls beyond the first, and then
    one Inserted record; on an invalid URL one Invalid URL record of level
    ERROR.  Every record names the worker. *)
Theorem shorten_with_logging_refines
        (env : Env) (wid : string) (fuel : nat) (request : ShortenRequest)
        (info : Request) (s : Application.Server) :
  Application.started wid s ->
  match url_shorten env fuel request info (Application.world s) with
  | Return r w' =>
      exists n,
        Application.url_shorten env fuel request info s =
          Application.Done r
            (Application.mkServer (Application.app s) w'
               (Application.log s
                ++ repeat (Application.regenerating wid) n
                ++ [Application.inserted wid])) /\
        List.length (calls w') =
          (List.length (calls (Application.world s)) + n + 2)%nat
  | Raise e w' =>
      Application.url_shorten env fuel request info s =
        Application.Fails (Application.Raised e)
          (Application.mkServer (Application.app s) w'
             (Application.log s ++ [Application.invalid_url wid]))
  | OutOfFuel =>
      Application.url_shorten env fuel request info s = Application.Hangs
  end.
Proof. apply app_url_shorten_refines. Qed.

Lemma shorten_with_logging_refines_witness :
  Application.started "worker-1" (started_server seeded_world) /\
  url_shorten env_A_then_B 1 req_new info_local seeded_world =
    Return (JSONResponse "localhost:8000/r/BBBBBBB" 201)
           world_after_one_retry /\
  exists n,
    Application.url_shorten env_A_then_B 1 req_new info_local
                            (started_server seeded_world) =
      Application.Done (JSONResponse "localhost:8000/r/BBBBBBB" 201)
        (Application.mkServer
           (Application.app (started_server seeded_world))
           world_after_one_retry
           (Application.log (started_server seeded_world)
            ++ repeat (Application.regenerating "worker-1") n
            ++ [Application.inserted "worker-1"])) /\
    List.length (calls world_after_one_retry) =
      (List.length (calls seeded_world) + n + 2)%nat.
Proof.
  assert (Hs : Application.started "worker-1" (started_server seeded_world))
    by (split; [reflexivity | discriminate]).
  split; [exact Hs|]. split; [reflexivity|].
  exact (shorten_with_logging_refines
           env_A_then_B "worker-1" 1 req_new info_local
           (started_server seeded_world) Hs).
Defined.

(** X11. [url_resolve] and [index] with their logging, on a started
    server: [url_resolve] first writes a Request handled record, then
    answers as the handler above does, and writes a record of level ERROR
    that names the code before it raises 404; [index] writes a Request
    handled record, returns its text and touches neither the world nor
    the attributes of [app]. *)
Theorem resolve_and_index_with_logging
        (wid : string) (k : string) (s : Application.Server) :
  Application.started wid s ->
  Application.url_resolve k s =
    match url_resolve k (Application.world s) with
    | Return r w' =>
        Application.Done r
          (Application.mkServer (Application.app s) w'
             (Application.log s ++ [Application.handled_by wid]))
    | Raise e w' =>
        Application.Fails (Application.Raised e)
          (Application.mkServer (Application.app s) w'
             (Application.log s
              ++ [Application.handled_by wid;
                  Application.was_not_found k wid]))
    | OutOfFuel => Application.Hangs
    end /\
  Application.index s =
    Application.Done "Your URL Shortener is running!"
      (Application.mkServer (Application.app s) (Application.world s)
         (Application.log s ++ [Application.handled_by wid])).
Proof.
  intros Hs. split.
  - now apply app_url_resolve_refines.
  - now apply app_index_started.
Qed.

Lemma resolve_and_index_with_logging_witness :
  Application.started "worker-1" (started_server seeded_world) /\
  Application.url_resolve "doesNotExist" (started_server seeded_world) =
    Application.Fails
      (Application.Raised (HTTPException 404 "doesNotExist not found"))
      (Application.mkServer
         (Application.app (started_server seeded_world))
         (log_call (FindOne "doesNotExist") seeded_world)
         (Application.log (started_server seeded_world)
          ++ [Application.handled_by "worker-1";
              Application.was_not_found "doesNotExist" "worker-1"])).
Proof.
  assert (Hs : Application.started "worker-1" (started_server seeded_world))
    by (split; [reflexivity | discriminate]).
  split; [exact Hs|].
  exact (proj1 (resolve_and_index_with_logging
                  "worker-1" "doesNotExist" (started_server seeded_world) Hs)).
Defined.

(** X12. The service with logging refines the handlers above: on a started
    server, a sequence of requests to the three routes comes back exactly
    when the handlers above come back on the calls among them, with the
    same outcomes in the same order and the same world at the end; the
    index requests only add a text reply.  The attributes of [app] are as
    before, and no reply is a failure other than an HTTP exception. *)
Theorem application_refines_handlers
        (env : Env) (wid : string) (fuel : nat)
        (rts : list Application.Route) (s : Application.Server) :
  Application.started wid s ->
  option_map
    (fun p => (Application.outcomes_of (fst p), Application.world (snd p)))
    (Application.run env fuel rts s) =
  serve env fuel (Application.calls_of rts) (Application.world s) /\
  (forall replies s',
      Application.run env fuel rts s = Some (replies, s') ->
      Application.app s' = Application.app s /\
      Forall (fun reply =>
                forall f, reply = Application.Failure f ->
                          exists code detail,
                            f = Application.Raised
                                  (HTTPException code detail))
             replies).
Proof.
  intros Hs. pose proof (run_refines env wid fuel rts s Hs) as H.
  destruct (serve env fuel (Application.calls_of rts) (Application.world s))
    as [[os w']|].
  - destruct H as (replies & s' & Hrun & <- & <- & Ha & Hall).
    rewrite Hrun. split; [reflexivity|].
    intros replies' s'' E. injection E as <- <-. split; assumption.
  - rewrite H. split; [reflexivity | discriminate].
Qed.

Lemma application_refines_handlers_witness :
  Application.started "worker-1" (started_server seeded_world) /\
  option_map
    (fun p => (Application.outcomes_of (fst p), Application.world (snd p)))
    (Application.run env_A_then_B 1 three_routes (started_server seeded_world))
  = Some ([Responded (JSONResponse "localhost:8000/r/BBBBBBB" 201);
           Responded (RedirectResponse "https://new.example/")],
          world_after_retry) /\
  serve env_A_then_B 1 (Application.calls_of three_routes) seeded_world =
    Some ([Responded (JSONResponse "localhost:8000/r/BBBBBBB" 201);
           Responded (RedirectResponse "https://new.example/")],
          world_after_retry).
Proof.
  assert (Hs : Application.started "worker-1" (started_server seeded_world))
    by (split; [reflexivity | discriminate]).
  split; [exact Hs|]. split; [reflexivity|].
  etransitivity; [|reflexivity]. symmetry.
  exact (proj1 (application_refines_handlers
                  env_A_then_B "worker-1" 1 three_routes
                  (started_server seeded_world) Hs)).
Defined.

(** X13. The handlers on a server whose worker id was never set.
    [url_resolve] and [index] raise AttributeError before anything else:
    no call on the collection, no log record.  [url_shorten] raises
    AttributeError instead of the 400 for an invalid URL.  And for a valid
    URL whose first code is free, [url_shorten] raises AttributeError
    after [insert_one]: the request fails, yet the document is in the
    collection. *)
Theorem handlers_without_worker_id
        (env : Env) (fuel : nat) (request : ShortenRequest) (info : Request)
        (k : string) (s : Application.Server) :
  Application.worker_id (Application.app s) = None ->
  Application.url_resolve k s =
    Application.Fails (Application.AttributeError "worker_id") s /\
  Application.index s =
    Application.Fails (Application.AttributeError "worker_id") s /\
  (validators_url env (url request) = false ->
   Application.url_shorten env fuel request info s =
     Application.Fails (Application.AttributeError "worker_id") s) /\
  (validators_url env (url request) = true ->
   Application.app_database (Application.app s) <> None ->
   lookup (candidate env (Application.world s) 0)
          (database (Application.world s)) = None ->
   exists s',
     Application.url_shorten env fuel request info s =
       Application.Fails (Application.AttributeError "worker_id") s' /\
     database (Application.world s') =
       (database (Application.world s)
        ++ [{| original_url := url request;
               short_url := candidate env (Application.world s) 0;
               created_at := clock env (ticks (Application.world s));
               updated_at := clock env (S (ticks (Application.world s))) |}])%list /\
     Application.log s' = Application.log s).
Proof.
  intros Hw. split; [|split; [|split]].
  - unfold Application.url_resolve, Application.bind,
      Application.get_worker_id. now rewrite Hw.
  - unfold Application.index, Application.bind, Application.get_worker_id.
    now rewrite Hw.
  - intros Hv. unfold Application.url_shorten. rewrite Hv. cbn [negb].
    unfold Application.bind, Application.get_worker_id. now rewrite Hw.
  - intros Hv Hdb Hfresh. unfold Application.url_shorten.
    rewrite Hv. cbn [negb].
    unfold Application.bind at 1. rewrite lift_generate_id.
    unfold Application.bind at 1.
    unfold Application.collection_find_one at 1.
    unfold Application.bind at 1. unfold Application.get_database at 1.
    cbn [Application.app Application.set_world].
    destruct (Application.app_database (Application.app s)) as [db|] eqn:Edb;
      [|congruence].
    unfold Application.lift at 1, find_one at 1.
    cbn [Application.world Application.set_world database advance_draws].
    rewrite Hfresh. unfold Application.bind at 1.
    rewrite app_loop_exit.
    cbv [Application.bind Application.lift now
         Application.collection_insert_one Application.get_database
         Application.get_worker_id insert_one Application.set_world
         Application.app Application.world Application.log].
    destruct s as [[c odb owid] w l].
    cbn [Application.app Application.world Application.log
         Application.worker_id Application.app_database] in *.
    subst owid odb. eexists. split; [reflexivity|].
    cbn [Application.world Application.log database log_call set_database
         advance_ticks advance_draws ticks].
    split; [|reflexivity]. repeat f_equal. lia.
Qed.

Lemma handlers_without_worker_id_witness :
  Application.worker_id (Application.app (half_started_server empty_world))
    = None /\
  validators_url env_A_then_B (url req_new) = true /\
  exists s',
    Application.url_shorten env_A_then_B 0 req_new info_local
                            (half_started_server empty_world) =
      Application.Fails (Application.AttributeError "worker_id") s' /\
    database (Application.world s') = [doc_new_A].
Proof.
  split; [reflexivity|]. split; [reflexivity|].
  destruct (handlers_without_worker_id
              env_A_then_B 0 req_new info_local "AAAAAAA"
              (half_started_server empty_world) eq_refl)
    as (_ & _ & _ & H).
  destruct (H eq_refl ltac:(discriminate) eq_refl) as (s' & Hrun & Hdb & _).
  exists s'. split; [exact Hrun | exact Hdb].
Defined.

(** X14. Start-up when the database does not answer the ping: the handler
    of the exception calls [logging.Error], which the module [logging]
    does not have, so [start_db_client] raises AttributeError and never
    the [Exception(e)] of line 39.  The client and the database attribute
    are set by then, the worker id is not, and nothing is logged.  The
    only other way for [start_db_client] to fail is [MongoClient(uri)]
    raising. *)
Theorem start_up_with_failed_ping
        (boot : Application.Boot) (s : Application.Server) :
  (Application.MongoClient_accepts boot (Application.MONGO_URI boot) = true ->
   Application.ping boot = false ->
   Application.start_db_client boot s =
     Application.Fails (Application.AttributeError "Error")
       (Application.mkServer
          (Application.mkApp
             (Some (Application.mkClient (Application.MONGO_URI boot) false))
             (Some "take-home")
             (Application.worker_id (Application.app s)))
          (Application.world s) (Application.log s))) /\
  (forall f s',
      Application.start_db_client boot s = Application.Fails f s' ->
      (f = Application.ClientError /\ s' = s /\
       Application.MongoClient_accepts boot (Application.MONGO_URI boot)
         = false) \/
      (f = Application.AttributeError "Error" /\
       Application.ping boot = false)).
Proof.
  unfold Application.start_db_client, Application.MongoClient,
    Application.bind.
  destruct (Application.MongoClient_accepts boot (Application.MONGO_URI boot));
    destruct (Application.ping boot); split; try discriminate;
    try reflexivity.
  - intros f s' H. right. injection H as <- _. auto.
  - intros f s' H. left. injection H as <- <-. auto.
  - intros f s' H. left. injection H as <- <-. auto.
Qed.

Lemma start_up_with_failed_ping_witness :
  Application.MongoClient_accepts boot_down (Application.MONGO_URI boot_down)
    = true /\
  Application.ping boot_down = false /\
  Application.start_db_client boot_down (new_server empty_world) =
    Application.Fails (Application.AttributeError "Error")
                      (half_started_server empty_world).
Proof.
  split; [reflexivity|]. split; [reflexivity|].
  exact (proj1 (start_up_with_failed_ping boot_down (new_server empty_world))
               eq_refl eq_refl).
Defined.

(** X15. The life cycle.  When [MongoClient(uri)] returns and the ping is
    answered, [start_db_client] returns: the server is started with the
    fresh uuid as worker id, the world is untouched, one record is logged.
    From there any sequence of requests is answered as the handlers above
    answer the calls among them, so no request fails on a missing
    attribute; and after them [shutdown_db_client] returns, with the
    client closed and the world as the requests left it. *)
Theorem start_serve_shut_down
        (env : Env) (boot : Application.Boot) (fuel : nat)
        (rts : list Application.Route) (s : Application.Server) :
  Application.MongoClient_accepts boot (Application.MONGO_URI boot) = true ->
  Application.ping boot = true ->
  exists s0,
    Application.start_db_client boot s = Application.Done tt s0 /\
    Application.started (Application.uuid4 boot) s0 /\
    Application.world s0 = Application.world s /\
    Application.log s0 =
      (Application.log s
       ++ [Application.mkLogRecord Application.INFO
             "You successfully connected to MongoDB!"])%list /\
    option_map
      (fun p => (Application.outcomes_of (fst p), Application.world (snd p)))
      (Application.run env fuel rts s0) =
    serve env fuel (Application.calls_of rts) (Application.world s) /\
    (forall replies s1,
        Application.run env fuel rts s0 = Some (replies, s1) ->
        exists s2,
          Application.shutdown_db_client s1 = Application.Done tt s2 /\
          Application.mongodb_client (Application.app s2) =
            Some (Application.mkClient (Application.MONGO_URI boot) true) /\
          Application.world s2 = Application.world s1).
Proof.
  intros Hacc Hping.
  unfold Application.start_db_client, Application.MongoClient,
    Application.bind.
  rewrite Hacc, Hping. eexists. split; [reflexivity|].
  match goal with |- Application.started _ ?s0 /\ _ => set (srv := s0) end.
  assert (Hs : Application.started (Application.uuid4 boot) srv)
    by (split; [reflexivity | discriminate]).
  split; [exact Hs|]. split; [reflexivity|]. split; [reflexivity|].
  pose proof (run_refines env (Application.uuid4 boot) fuel rts srv Hs) as H.
  change (Application.world srv) with (Application.world s) in H.
  destruct (serve env fuel (Application.calls_of rts) (Application.world s))
    as [[os w']|].
  - destruct H as (replies & s1 & Hrun & <- & <- & Ha & _).
    rewrite Hrun. split; [reflexivity|].
    intros replies' s1' E. injection E as <- <-.
    unfold Application.shutdown_db_client, Application.bind,
      Application.logging_info, Application.get_mongodb_client.
    cbn [Application.app Application.add_log]. rewrite Ha.
    eexists. split; [reflexivity|]. split; reflexivity.
  - rewrite H. split; [reflexivity | discriminate].
Qed.

Lemma start_serve_shut_down_witness :
  Application.MongoClient_accepts boot_up (Application.MONGO_URI boot_up)
    = true /\
  Application.ping boot_up = true /\
  exists s0,
    Application.start_db_client boot_up (new_server seeded_world) =
      Application.Done tt s0 /\
    Application.started "worker-1" s0 /\
    option_map
      (fun p => (Application.outcomes_of (fst p), Application.world (snd p)))
      (Application.run env_A_then_B 1 three_routes s0) =
    serve env_A_then_B 1 (Application.calls_of three_routes) seeded_world.
Proof.
  split; [reflexivity|]. split; [reflexivity|].
  destruct (start_serve_shut_down
              env_A_then_B boot_up 1 three_routes (new_server seeded_world)
              eq_refl eq_refl)
    as (s0 & Hstart & Hs & _ & _ & Hrun & _).
  exists s0. split; [exact Hstart|]. split; [exact Hs | exact Hrun].
Defined.

(** X16. Every request leaves its trace: on a started server, whatever
    requests are served, the log only grows at its end, by at least one
    record per request, and the message of every new record ends with the
    worker's id. *)
Theorem every_request_is_logged_with_the_worker
        (env : Env) (wid : string) (fuel : nat)
        (rts : list Application.Route) (s : Application.Server)
        (replies : list Application.Reply) (s' : Application.Server) :
  Application.started wid s ->
  Application.run env fuel rts s = Some (replies, s') ->
  exists added,
    Application.log s' = (Application.log s ++ added)%list /\
    (List.length rts <= List.length added)%nat /\
    Forall (fun r => exists prefix, Application.message r = prefix ++ wid)
           added.
Proof.
  intros Hs Hrun.
  destruct (run_logs env wid fuel rts s replies s' Hs Hrun)
    as (added & Hlog & Hlen & Hall).
  exists added. split; [exact Hlog|]. split; [exact Hlen|]. exact Hall.
Qed.

Lemma every_request_is_logged_with_the_worker_witness :
  Application.started "worker-1" (started_server seeded_world) /\
  exists replies s',
    Application.run env_A_then_B 1 three_routes (started_server seeded_world)
      = Some (replies, s') /\
    exists added,
      Application.log s' =
        (Application.log (started_server seeded_world) ++ added)%list /\
      (3 <= List.length added)%nat.
Proof.
  assert (Hs : Application.started "worker-1" (started_server seeded_world))
    by (split; [reflexivity | discriminate]).
  split; [exact Hs|].
  destruct (Application.run env_A_then_B 1 three_routes
              (started_server seeded_world)) as [[replies s']|] eqn:Hrun;
    [|discriminate Hrun].
  exists replies, s'. split; [reflexivity|].
  destruct (every_request_is_logged_with_the_worker
              env_A_then_B "worker-1" 1 three_routes
              (started_server seeded_world) replies s' Hs Hrun)
    as (added & Hlog & Hlen & _).
  exists added. split; [exact Hlog | exact Hlen].
Defined.
